(** * Authentication and authorization gate of the Atlas backend

    A shallow embedding of [middleware/auth.js] (authenticateToken,
    requireRole, optionalAuth), of the [db_helpers] of [db.js] that the gate
    calls, and of the DELETE handler of [routes/api_keys.js].

    The Express request object is mutated in place by the middlewares and the
    hosted database is mutated by the helpers, so both live in one explicit
    state, threaded through a small state-and-exception monad.  The token
    codec ([jwt.verify]) and the digest ([crypto.createHash('sha256')]) are
    external collaborators: they are Section variables. *)

From Stdlib Require Import Ascii String.
From stdpp Require Import gmap strings list.
From stdpp Require Import sorting.

Open Scope string_scope.

(** ** JavaScript values used by the gate *)

Module Js.

(** [s.split(sep)] for a one-character separator: the fields between the
    occurrences of [sep]; never empty, [''.split(' ')] is [['']]. *)
Fixpoint split (sep : ascii) (s : string) : list string :=
  match s with
  | EmptyString => [EmptyString]
  | String c rest =>
      if decide (c = sep) then EmptyString :: split sep rest
      else match split sep rest with
           | fld :: flds => String c fld :: flds
           | [] => [String c EmptyString]
           end
  end.

(** Truthiness of a value that is [undefined] ([None]) or a string. *)
Definition truthy (v : option string) : bool :=
  match v with
  | Some s => negb (bool_decide (s = ""))
  | None => false
  end.

(** [v && f(v)] for such a value: a falsy [v] is the result itself. *)
Definition and_then (v : option string) (f : string -> option string)
  : option string :=
  match v with
  | Some s => if bool_decide (s = "") then Some s else f s
  | None => None
  end.

(** [allowed.includes(v)] on an array of strings; [undefined] is in none. *)
Definition includes (allowed : list string) (v : option string) : bool :=
  match v with
  | Some s => bool_decide (s ∈ allowed)
  | None => false
  end.

(** [s.includes(' ')] *)
Fixpoint has_space (s : string) : bool :=
  match s with
  | EmptyString => false
  | String c rest => if decide (c = " "%char) then true else has_space rest
  end.

End Js.

(** ** Data model *)

(** Error object of the database client; [code] is what the helpers test. *)
Record PgError := { code : string; message : string }.

Inductive TokenError := TokenInvalid | TokenExpired.

(** What a [catch (error)] of the gate can receive. *)
Inductive Exn :=
| JwtExn (e : TokenError)
| StoreExn (e : PgError)
| TypeError (msg : string).

(** Payload of a verified token, as signed by the login and register routes. *)
Record Claims := { userId : string; claim_username : string; claim_role : string }.

(** Row of table [profiles]. *)
Record ProfileRow := {
  profile_id : string;
  profile_username : string;
  profile_email : string;
  profile_password_hash : string;
  profile_role : string;
  profile_created_at : string
}.

(** Row of table [api_keys]. *)
Record ApiKeyRow := {
  key_id : string;
  key_user_id : string;
  key_name : string;
  key_hash : string;
  key_last_used_at : option string;
  key_created_at : string
}.

(** The object stored in [req.user].  [getUserById] produces all five
    properties; the API-key path produces four of them, each possibly
    [undefined] when the joined profile is missing. *)
Record User := {
  u_id : string;
  u_username : option string;
  u_email : option string;
  u_role : option string;
  u_created_at : option string
}.

(** The joined [profiles(username, email, role)] of an API-key row. *)
Record OwnerEmbed := {
  owner_username : string;
  owner_email : string;
  owner_role : string
}.

(** Result of [getApiKeyByHash]: the row, the embedded owner and the three
    properties spread on top of it. *)
Record KeyRecord := {
  kr_row : ApiKeyRow;
  kr_profiles : option OwnerEmbed;
  kr_username : option string;
  kr_email : option string;
  kr_role : option string
}.

Record Db := { profiles : list ProfileRow; api_keys : list ApiKeyRow }.

(** The four queries the modelled code sends to the store. *)
Inductive Query :=
| SelectProfileById (id : string)
| SelectApiKeyByHash (h : string)
| UpdateApiKeyLastUsed (id : string)
| DeleteApiKey (id uid : string).

(** Calls to external collaborators, recorded in order. *)
Inductive Event :=
| EvJwtVerify (token secret : string)
| EvSha256 (input : string)
| EvQuery (q : Query).

(** JSON bodies the modelled handlers send. *)
Inductive Body :=
| ErrorBody (error : string)
| InsufficientBody (error : string) (required : list string) (current : option string)
| MessageBody (msg : string).

(** How a middleware or handler ends: it calls [next()] or sends a response. *)
Inductive Outcome :=
| Next
| Respond (status : nat) (body : Body).

(** The Express request: headers (names in lower case, as Node delivers
    them), the route parameter [:id], and the two properties the gate sets. *)
Record Req := {
  headers : gmap string string;
  param_id : string;
  user : option User;
  authType : option string
}.

(** Everything a request handler can read or change: the request in flight,
    the store, the clock read by [new Date()], the infrastructure failures
    ([fault q] is the error the store answers to query [q], if any), and the
    trace of external calls (most recent first). *)
Record World := {
  req : Req;
  db : Db;
  now : string;
  fault : Query -> option PgError;
  trace : list Event
}.

Definition set_req (r : Req) (w : World) : World :=
  {| req := r; db := db w; now := now w; fault := fault w; trace := trace w |}.

Definition set_db (d : Db) (w : World) : World :=
  {| req := req w; db := d; now := now w; fault := fault w; trace := trace w |}.

Definition log (e : Event) (w : World) : World :=
  {| req := req w; db := db w; now := now w; fault := fault w;
     trace := e :: trace w |}.

Definition with_user (u : User) (r : Req) : Req :=
  {| headers := headers r; param_id := param_id r; user := Some u;
     authType := authType r |}.

Definition with_authType (t : string) (r : Req) : Req :=
  {| headers := headers r; param_id := param_id r; user := user r;
     authType := Some t |}.

(** ** The monad: state passing with exceptions *)

Inductive Result (A : Type) :=
| Ok (a : A)
| Throw (e : Exn).
Arguments Ok {A} a.
Arguments Throw {A} e.

Definition M (A : Type) : Type := World -> Result A * World.

Definition ret {A} (a : A) : M A := fun w => (Ok a, w).

Definition throw {A} (e : Exn) : M A := fun w => (Throw e, w).

Definition bind {A B} (m : M A) (k : A -> M B) : M B :=
  fun w =>
    match m w with
    | (Ok a, w') => k a w'
    | (Throw e, w') => (Throw e, w')
    end.

(** [try { m } catch (error) { h error }]: the state reached when the
    exception was thrown is kept. *)
Definition try_catch {A} (m : M A) (h : Exn -> M A) : M A :=
  fun w =>
    match m w with
    | (Ok a, w') => (Ok a, w')
    | (Throw e, w') => h e w'
    end.

Definition gets {A} (f : World -> A) : M A := fun w => (Ok (f w), w).

Definition modify (f : World -> World) : M unit := fun w => (Ok tt, f w).

Notation "'let!' x ':=' c 'in' k" := (bind c (fun x => k))
  (at level 10, x name, c at level 100, k at level 200).
Notation "'run!' c 'in' k" := (bind c (fun _ => k))
  (at level 10, c at level 100, k at level 200).

Definition next : M Outcome := ret Next.

(** [return res.status(s).json(b)] *)
Definition respond (s : nat) (b : Body) : M Outcome := ret (Respond s b).

(** ** The database client *)

Module Supabase.

(** The [{ data, error, count }] object a query resolves to. *)
Record Response (A : Type) := {
  data : option A;
  error : option PgError;
  count : option nat
}.
Arguments data {A} _.
Arguments error {A} _.
Arguments count {A} _.

(** PostgREST's answer to [.single()] when the rows are not exactly one. *)
Definition PGRST116 : PgError :=
  {| code := "PGRST116";
     message := "JSON object requested, multiple (or no) rows returned" |}.

Definition single {A} (rows : list A) : Response A :=
  match rows with
  | [r] => {| data := Some r; error := None; count := None |}
  | _ => {| data := None; error := Some PGRST116; count := None |}
  end.

Definition failed {A} (e : PgError) : Response A :=
  {| data := None; error := Some e; count := None |}.

(** Send query [q]: recorded in the trace; answered by the failure if the
    infrastructure fails, by [exec] on the tables otherwise. *)
Definition send {A} (q : Query) (exec : Db -> Response A * Db)
  : M (Response A) :=
  fun w =>
    let w1 := log (EvQuery q) w in
    match fault w q with
    | Some e => (Ok (failed e), w1)
    | None => let '(r, d) := exec (db w) in (Ok r, set_db d w1)
    end.

(** [.select('id, username, email, role, created_at')] *)
Definition user_columns (p : ProfileRow) : User :=
  {| u_id := profile_id p;
     u_username := Some (profile_username p);
     u_email := Some (profile_email p);
     u_role := Some (profile_role p);
     u_created_at := Some (profile_created_at p) |}.

(** [.select('*, profiles(username, email, role)')] *)
Definition owner_columns (p : ProfileRow) : OwnerEmbed :=
  {| owner_username := profile_username p;
     owner_email := profile_email p;
     owner_role := profile_role p |}.

Definition owner_of (d : Db) (k : ApiKeyRow) : option OwnerEmbed :=
  owner_columns <$> head (filter (λ p, profile_id p = key_user_id k) (profiles d)).

Definition touch (id stamp : string) (k : ApiKeyRow) : ApiKeyRow :=
  if decide (key_id k = id)
  then {| key_id := key_id k; key_user_id := key_user_id k;
          key_name := key_name k; key_hash := key_hash k;
          key_last_used_at := Some stamp;
          key_created_at := key_created_at k |}
  else k.

Definition owned_key (id uid : string) (k : ApiKeyRow) : Prop :=
  key_id k = id ∧ key_user_id k = uid.

#[global] Instance owned_key_dec id uid k : Decision (owned_key id uid k).
Proof. unfold owned_key. apply _. Defined.

End Supabase.

(** ** The gate and its helpers *)

Section Gate.

(** [jwt.verify(token, secret)]: the payload, or the error it throws. *)
Variable jwt_verify : string -> string -> TokenError + Claims.

(** [crypto.createHash('sha256').update(k).digest('hex')] *)
Variable sha256_hex : string -> string.

(** [process.env.JWT_SECRET] *)
Variable env_JWT_SECRET : option string.

Definition JWT_SECRET : string :=
  if Js.truthy env_JWT_SECRET
  then default "" env_JWT_SECRET
  else "atlas-knowledge-infrastructure-secret-key-2026".

Definition verify (token : string) : M Claims :=
  run! modify (log (EvJwtVerify token JWT_SECRET)) in
  match jwt_verify token JWT_SECRET with
  | inr decoded => ret decoded
  | inl e => throw (JwtExn e)
  end.

Definition sha256 (input : string) : M string :=
  run! modify (log (EvSha256 input)) in
  ret (sha256_hex input).

(** [if (error && error.code !== 'PGRST116') throw error] *)
Definition throw_unless_no_rows (error : option PgError) : M unit :=
  match error with
  | Some e => if bool_decide (code e ≠ "PGRST116") then throw (StoreExn e) else ret tt
  | None => ret tt
  end.

(** [if (error) throw error] *)
Definition throw_if_error (error : option PgError) : M unit :=
  match error with
  | Some e => throw (StoreExn e)
  | None => ret tt
  end.

Definition getUserById (id : string) : M (option User) :=
  let! r := Supabase.send (SelectProfileById id) (fun d =>
      (Supabase.single
         (Supabase.user_columns <$> filter (λ p, profile_id p = id) (profiles d)),
       d)) in
  run! throw_unless_no_rows (Supabase.error r) in
  ret (Supabase.data r).

Definition deleteApiKey (id userId : string) : M (option nat) :=
  let! r := Supabase.send (A := unit) (DeleteApiKey id userId) (fun d =>
      let gone := filter (Supabase.owned_key id userId) (api_keys d) in
      let kept := filter (λ k, ¬ Supabase.owned_key id userId k) (api_keys d) in
      ({| Supabase.data := None; Supabase.error := None;
          Supabase.count := Some (length gone) |},
       {| profiles := profiles d; api_keys := kept |})) in
  run! throw_if_error (Supabase.error r) in
  ret (Supabase.count r).

Definition getApiKeyByHash (keyHash : string) : M (option KeyRecord) :=
  let! r := Supabase.send (SelectApiKeyByHash keyHash) (fun d =>
      (Supabase.single
         ((λ k, (k, Supabase.owner_of d k))
            <$> filter (λ k, key_hash k = keyHash) (api_keys d)),
       d)) in
  run! throw_unless_no_rows (Supabase.error r) in
  match Supabase.data r with
  | None => ret None
  | Some (k, owner) =>
      ret (Some {| kr_row := k;
                   kr_profiles := owner;
                   kr_username := owner_username <$> owner;
                   kr_email := owner_email <$> owner;
                   kr_role := owner_role <$> owner |})
  end.

Definition updateApiKeyLastUsed (id : string) : M unit :=
  let! stamp := gets now in
  let! r := Supabase.send (A := unit) (UpdateApiKeyLastUsed id) (fun d =>
      ({| Supabase.data := None; Supabase.error := None; Supabase.count := None |},
       {| profiles := profiles d;
          api_keys := Supabase.touch id stamp <$> api_keys d |})) in
  throw_if_error (Supabase.error r).

(** [authHeader && authHeader.split(' ')[1]] *)
Definition bearer_token (authHeader : option string) : option string :=
  Js.and_then authHeader (fun h => Js.split " " h !! 1%nat).

Definition authenticateToken : M Outcome :=
  let! attached := gets (fun w => user (req w)) in
  if bool_decide (is_Some attached) then next else
  let! authHeader := gets (fun w => headers (req w) !! "authorization") in
  let! apiKey := gets (fun w => headers (req w) !! "x-api-key") in
  let token := bearer_token authHeader in
  if Js.truthy token then
    try_catch
      (let! decoded := verify (default "" token) in
       let! found := getUserById (userId decoded) in
       match found with
       | None => respond 401 (ErrorBody "Invalid token: user not found")
       | Some u =>
           run! modify (fun w => set_req (with_user u (req w)) w) in
           run! modify (fun w => set_req (with_authType "jwt" (req w)) w) in
           next
       end)
      (fun _ => respond 403 (ErrorBody "Invalid or expired token"))
  else if Js.truthy apiKey then
    try_catch
      (let! keyHash := sha256 (default "" apiKey) in
       let! keyRecord := getApiKeyByHash keyHash in
       match keyRecord with
       | None => respond 401 (ErrorBody "Invalid API key")
       | Some kr =>
           run! modify (fun w =>
             set_req (with_user {| u_id := key_user_id (kr_row kr);
                                   u_username := kr_username kr;
                                   u_email := kr_email kr;
                                   u_role := kr_role kr;
                                   u_created_at := None |} (req w)) w) in
           run! modify (fun w => set_req (with_authType "apikey" (req w)) w) in
           run! updateApiKeyLastUsed (key_id (kr_row kr)) in
           next
       end)
      (fun _ => respond 500 (ErrorBody "Internal server error during authentication"))
  else respond 401 (ErrorBody "Authentication required").

Definition requireRole (allowedRoles : list string) : M Outcome :=
  let! attached := gets (fun w => user (req w)) in
  match attached with
  | None => respond 401 (ErrorBody "Authentication required")
  | Some u =>
      if negb (Js.includes allowedRoles (u_role u))
      then respond 403 (InsufficientBody "Insufficient permissions"
                          allowedRoles (u_role u))
      else next
  end.

Definition optionalAuth : M Outcome :=
  let! authHeader := gets (fun w => headers (req w) !! "authorization") in
  let token := bearer_token authHeader in
  if negb (Js.truthy token) then next else
  run! try_catch
      (let! decoded := verify (default "" token) in
       let! found := getUserById (userId decoded) in
       match found with
       | Some u => modify (fun w => set_req (with_user u (req w)) w)
       | None => ret tt
       end)
      (fun _ => ret tt) in
  next.

(** Handler of [DELETE /api/keys/:id], after the gate. *)
Definition revokeApiKey : M Outcome :=
  let! id := gets (fun w => param_id (req w)) in
  try_catch
    (let! attached := gets (fun w => user (req w)) in
     let! uid := match attached with
                 | Some u => ret (u_id u)
                 | None => throw (TypeError "Cannot read properties of undefined (reading 'id')")
                 end in
     let! changes := deleteApiKey id uid in
     if bool_decide (changes = Some 0%nat)
     then respond 404 (ErrorBody "API key not found")
     else respond 200 (MessageBody "API key revoked successfully"))
    (fun _ => respond 500 (ErrorBody "Failed to revoke API key")).

(** [router.METHOD(path, m1, m2)]: [m2] runs when [m1] calls [next()]. *)
Definition chain (m1 m2 : M Outcome) : M Outcome :=
  let! o := m1 in
  match o with
  | Next => m2
  | Respond _ _ => ret o
  end.

(** [router.delete('/:id', authenticateToken, ...)] *)
Definition route_delete_key : M Outcome := chain authenticateToken revokeApiKey.

End Gate.

(** ** Observations on a run of the gate *)

(** The token the gate works with. *)
Definition token_of (w : World) : option string :=
  bearer_token (headers (req w) !! "authorization").

Definition apiKey_of (w : World) : option string :=
  headers (req w) !! "x-api-key".

Definition unauthorized_token : Outcome :=
  Respond 403 (ErrorBody "Invalid or expired token").

Definition stale_token : Outcome :=
  Respond 401 (ErrorBody "Invalid token: user not found").

Definition unknown_key : Outcome := Respond 401 (ErrorBody "Invalid API key").

Definition store_down : Outcome :=
  Respond 500 (ErrorBody "Internal server error during authentication").

Definition no_credential : Outcome :=
  Respond 401 (ErrorBody "Authentication required").

Definition key_missing : Outcome := Respond 404 (ErrorBody "API key not found").

Definition key_revoked : Outcome :=
  Respond 200 (MessageBody "API key revoked successfully").

Definition attach (u : User) (t : string) (w : World) : World :=
  set_req (with_authType t (with_user u (req w))) w.

Definition key_principal (kr : KeyRecord) : User :=
  {| u_id := key_user_id (kr_row kr); u_username := kr_username kr;
     u_email := kr_email kr; u_role := kr_role kr; u_created_at := None |}.

(** The rows [getUserById] gets back when the store answers. *)
Definition users_with_id (id : string) (w : World) : list User :=
  Supabase.user_columns <$> filter (λ p, profile_id p = id) (profiles (db w)).

(** What the API-key lookup gets back when the store answers. *)
Definition keys_with_hash (h : string) (w : World) : list ApiKeyRow :=
  filter (λ k, key_hash k = h) (api_keys (db w)).

Definition key_record (d : Db) (k : ApiKeyRow) : KeyRecord :=
  let owner := Supabase.owner_of d k in
  {| kr_row := k; kr_profiles := owner;
     kr_username := owner_username <$> owner;
     kr_email := owner_email <$> owner;
     kr_role := owner_role <$> owner |}.

(** A field of a header ends at the end of the header or at a space. *)
Definition field_end (rest : string) : Prop :=
  rest = "" ∨ ∃ r, rest = String " " r.

(** Events of API-key resolution: the digest, the lookup by digest and the
    [last_used_at] update. *)
Definition key_event (e : Event) : bool :=
  match e with
  | EvSha256 _ => true
  | EvQuery (SelectApiKeyByHash _) => true
  | EvQuery (UpdateApiKeyLastUsed _) => true
  | _ => false
  end.

Definition verify_event (e : Event) : bool :=
  match e with
  | EvJwtVerify _ _ => true
  | _ => false
  end.

(** What a caller and the next handler can see of a run: the outcome, the
    principal and [authType] on the request, the tables and the trace. *)
Definition observe (r : Result Outcome * World)
  : Result Outcome * option User * option string * Db * list Event :=
  (fst r, user (req (snd r)), authType (req (snd r)), db (snd r), trace (snd r)).

Definition status_of (r : Result Outcome) : option nat :=
  match r with
  | Ok (Respond s _) => Some s
  | _ => None
  end.

Definition with_headers (hs : gmap string string) (w : World) : World :=
  set_req {| headers := hs; param_id := param_id (req w); user := user (req w);
             authType := authType (req w) |} w.

(** ** A concrete store and concrete requests *)

Module Demo.

Definition alice : ProfileRow :=
  {| profile_id := "u1"; profile_username := "alice";
     profile_email := "alice@atlas.test"; profile_password_hash := "$2a$10$a";
     profile_role := "admin"; profile_created_at := "2026-01-01T00:00:00.000Z" |}.

Definition bob : ProfileRow :=
  {| profile_id := "u2"; profile_username := "bob";
     profile_email := "bob@atlas.test"; profile_password_hash := "$2a$10$b";
     profile_role := "viewer"; profile_created_at := "2026-01-02T00:00:00.000Z" |}.

Definition sha (k : string) : string := "sha256:" ++ k.

Definition bob_key : ApiKeyRow :=
  {| key_id := "k1"; key_user_id := "u2"; key_name := "ci";
     key_hash := sha "atla_b0b"; key_last_used_at := None;
     key_created_at := "2026-02-01T00:00:00.000Z" |}.

Definition store : Db := {| profiles := [alice; bob]; api_keys := [bob_key] |}.

(** Tokens: one signed for alice, one for bob, one for a deleted user, one
    expired; anything else is malformed. *)
Definition jwt (token secret : string) : TokenError + Claims :=
  if bool_decide (token = "tok-alice")
  then inr {| userId := "u1"; claim_username := "alice"; claim_role := "admin" |}
  else if bool_decide (token = "tok-bob")
  then inr {| userId := "u2"; claim_username := "bob"; claim_role := "viewer" |}
  else if bool_decide (token = "tok-carol")
  then inr {| userId := "u3"; claim_username := "carol"; claim_role := "viewer" |}
  else if bool_decide (token = "tok-old") then inl TokenExpired
  else inl TokenInvalid.

Definition healthy : Query -> option PgError := fun _ => None.

Definition connection_lost : PgError :=
  {| code := "08006"; message := "connection failure" |}.

Definition request (hs : list (string * string)) : Req :=
  {| headers := list_to_map hs; param_id := "k1"; user := None;
     authType := None |}.

Definition world (f : Query -> option PgError) (r : Req) : World :=
  {| req := r; db := store; now := "2026-11-03T00:00:00.000Z"; fault := f;
     trace := [] |}.

Definition outage : Query -> option PgError := fun _ => Some connection_lost.

(** The store answers every query but the [last_used_at] update. *)
Definition touch_fails (q : Query) : option PgError :=
  match q with
  | UpdateApiKeyLastUsed _ => Some connection_lost
  | _ => None
  end.

Definition alice_claims : Claims :=
  {| userId := "u1"; claim_username := "alice"; claim_role := "admin" |}.

Definition carol_claims : Claims :=
  {| userId := "u3"; claim_username := "carol"; claim_role := "viewer" |}.

Definition bearer (t : string) : Req := request [("authorization", "Bearer " ++ t)].

Definition with_key (k : string) : Req := request [("x-api-key", k)].

Definition both (t k : string) : Req :=
  request [("authorization", "Bearer " ++ t); ("x-api-key", k)].

(** A request on which an earlier middleware attached the row of [p]. *)
Definition signed_in (p : ProfileRow) (key : string) : Req :=
  {| headers := ∅; param_id := key; user := Some (Supabase.user_columns p);
     authType := Some "jwt" |}.

Definition gate : M Outcome := authenticateToken jwt sha None.
Definition soft_gate : M Outcome := optionalAuth jwt None.
Definition secret : string := JWT_SECRET None.

End Demo.


(** ** The routes on API keys and on users *)

(** Queries these routes send and the gate does not. *)
Inductive RouteQuery :=
| InsertApiKey (userId name keyHash : string)
| SelectApiKeysByUser (userId : string)
| SelectAdminIds
| UpdateProfileRole (id role : string)
| SelectProfileId (id : string)
| DeleteProfile (id : string)
| SelectProfileByIdentifier (identifier : string)
| CountProfiles
| InsertProfile (username email passwordHash role : string).

(** An item of [GET /api/keys]: the columns [id, name, last_used_at,
    created_at]. *)
Record KeyListing := {
  listed_id : string;
  listed_name : string;
  listed_last_used_at : option string;
  listed_created_at : string
}.

(** JSON bodies of these routes. *)
Inductive Payload :=
| ErrorPayload (error : string)
| KeysPayload (keys : option (list KeyListing))
| KeyCreatedPayload (name key message : string)
| RoleUpdatedPayload (message userId newRole : string)
| UserDeletedPayload (message userId : string)
| SessionPayload (message token id username email role : string).

(** A route handler ends by sending a response. *)
Inductive Reply :=
| Sent (status : nat) (payload : Payload).

Definition sent (s : nat) (p : Payload) : M Reply := ret (Sent s p).

(** [router.METHOD(path, ...middlewares, handler)]: the handler runs when
    the middlewares call [next()]; otherwise their response stands. *)
Definition guarded (m : M Outcome) (h : M Reply) : M (Outcome + Reply) :=
  let! o := m in
  match o with
  | Next => let! r := h in ret (inr r)
  | Respond _ _ => ret (inl o)
  end.

(** [req.user.id]; a [TypeError] when no principal is attached. *)
Definition req_user_id : M string :=
  let! attached := gets (fun w => user (req w)) in
  match attached with
  | Some u => ret (u_id u)
  | None => throw (TypeError "Cannot read properties of undefined (reading 'id')")
  end.

Definition listing (k : ApiKeyRow) : KeyListing :=
  {| listed_id := key_id k; listed_name := key_name k;
     listed_last_used_at := key_last_used_at k;
     listed_created_at := key_created_at k |}.

Definition with_role (role : string) (p : ProfileRow) : ProfileRow :=
  {| profile_id := profile_id p; profile_username := profile_username p;
     profile_email := profile_email p;
     profile_password_hash := profile_password_hash p;
     profile_role := role; profile_created_at := profile_created_at p |}.

Section Routes.

Variable jwt_verify : string -> string -> TokenError + Claims.
Variable sha256_hex : string -> string.
Variable env_JWT_SECRET : option string.

(** The failure, if any, the store answers to a query of these routes. *)
Variable outage : RouteQuery -> option PgError.

(** [crypto.randomBytes(32).toString('hex')], as drawn for this request. *)
Variable randomBytes_hex : string.

(** The columns the database fills in on insert into [api_keys]: [id],
    [created_at] and [last_used_at]. *)
Variable key_defaults : Db -> string * string * option string.

(** The order of the database on [created_at]: [newer a b] when [a] is not
    before [b]. *)
Variable newer : string -> string -> bool.

(** What deleting the profiles with a given id does to [api_keys] (nothing,
    or the cascade of the foreign key). *)
Variable on_profile_delete : string -> list ApiKeyRow -> list ApiKeyRow.

Definition newer_row (a b : ApiKeyRow) : Prop :=
  newer (key_created_at a) (key_created_at b) = true.

#[global] Instance newer_row_dec a b : Decision (newer_row a b).
Proof. unfold newer_row. apply _. Defined.

(** Send query [q] of a route: answered by the failure if the store fails,
    by [exec] on the tables otherwise.  The trace, which records the external
    calls of the gate, is left alone. *)
Definition send_route {A} (q : RouteQuery) (exec : Db -> Supabase.Response A * Db)
  : M (Supabase.Response A) :=
  fun w =>
    match outage q with
    | Some e => (Ok (Supabase.failed e), w)
    | None => let '(r, d) := exec (db w) in (Ok r, set_db d w)
    end.

Definition rows {A} (l : list A) : Supabase.Response (list A) :=
  {| Supabase.data := Some l; Supabase.error := None; Supabase.count := None |}.

Definition done_ : Supabase.Response unit :=
  {| Supabase.data := None; Supabase.error := None; Supabase.count := None |}.

Definition createApiKey (userId name keyHash : string) : M (option ApiKeyRow) :=
  let! r := send_route (InsertApiKey userId name keyHash) (fun d =>
      let '(id, created_at, last_used_at) := key_defaults d in
      let row := {| key_id := id; key_user_id := userId; key_name := name;
                    key_hash := keyHash; key_last_used_at := last_used_at;
                    key_created_at := created_at |} in
      (Supabase.single [row],
       {| profiles := profiles d; api_keys := api_keys d ++ [row] |})) in
  run! throw_if_error (Supabase.error r) in
  ret (Supabase.data r).

Definition getApiKeysByUser (userId : string) : M (option (list KeyListing)) :=
  let! r := send_route (SelectApiKeysByUser userId) (fun d =>
      (rows (listing <$>
               merge_sort newer_row
                 (filter (λ k, key_user_id k = userId) (api_keys d))),
       d)) in
  run! throw_if_error (Supabase.error r) in
  ret (Supabase.data r).

(** Handler of [GET /api/keys]. *)
Definition listApiKeys : M Reply :=
  try_catch
    (let! uid := req_user_id in
     let! keys := getApiKeysByUser uid in
     sent 200 (KeysPayload keys))
    (fun _ => sent 500 (ErrorPayload "Failed to list API keys")).

(** Handler of [POST /api/keys]; [name] is [req.body.name]. *)
Definition issueApiKey (name : option string) : M Reply :=
  if negb (Js.truthy name)
  then sent 400 (ErrorPayload "Key name is required")
  else
    try_catch
      (let key := "atla_" ++ randomBytes_hex in
       let! keyHash := sha256 sha256_hex key in
       let! uid := req_user_id in
       run! createApiKey uid (default "" name) keyHash in
       sent 201 (KeyCreatedPayload (default "" name) key
                   "Make sure to copy your API key now. You won't be able to see it again!"))
      (fun _ => sent 500 (ErrorPayload "Failed to create API key")).

(** Handler of [PATCH /api/users/:id/role]; [role] is [req.body.role]. *)
Definition updateUserRole (role : option string) : M Reply :=
  try_catch
    (let! id := gets (fun w => param_id (req w)) in
     if negb (Js.includes ["admin"; "contributor"; "viewer"] role)
     then sent 400 (ErrorPayload "Invalid role. Must be admin, contributor, or viewer.")
     else
       let! uid := req_user_id in
       let! only_admin :=
         (if bool_decide (uid = id) then
            let! r := send_route SelectAdminIds (fun d =>
                (rows (profile_id <$> filter (λ p, profile_role p = "admin") (profiles d)),
                 d)) in
            run! throw_if_error (Supabase.error r) in
            match Supabase.data r with
            | Some adminCount =>
                ret (bool_decide (length adminCount = 1%nat)
                     && negb (bool_decide (role = Some "admin")))
            | None => throw (TypeError "Cannot read properties of null (reading 'length')")
            end
          else ret false) in
       if only_admin
       then sent 400 (ErrorPayload "Cannot demote the only admin user")
       else
         let! r := send_route (A := unit) (UpdateProfileRole id (default "" role)) (fun d =>
             (done_,
              {| profiles := (λ p, if decide (profile_id p = id)
                                   then with_role (default "" role) p else p)
                             <$> profiles d;
                 api_keys := api_keys d |})) in
         run! throw_if_error (Supabase.error r) in
         sent 200 (RoleUpdatedPayload "User role updated successfully" id
                     (default "" role)))
    (fun _ => sent 500 (ErrorPayload "Failed to update user role")).

(** Handler of [DELETE /api/users/:id]. *)
Definition deleteUser : M Reply :=
  try_catch
    (let! id := gets (fun w => param_id (req w)) in
     let! uid := req_user_id in
     if bool_decide (uid = id)
     then sent 400 (ErrorPayload "Cannot delete your own account")
     else
       let! found := send_route (SelectProfileId id) (fun d =>
           (Supabase.single (profile_id <$> filter (λ p, profile_id p = id) (profiles d)),
            d)) in
       match Supabase.error found with
       | Some fetchError =>
           if bool_decide (code fetchError = "PGRST116")
           then sent 404 (ErrorPayload "User not found")
           else throw (StoreExn fetchError)
       | None =>
           let! r := send_route (A := unit) (DeleteProfile id) (fun d =>
               (done_,
                {| profiles := filter (λ p, profile_id p ≠ id) (profiles d);
                   api_keys := on_profile_delete id (api_keys d) |})) in
           run! throw_if_error (Supabase.error r) in
           sent 200 (UserDeletedPayload "User deleted successfully" id)
       end)
    (fun _ => sent 500 (ErrorPayload "Failed to delete user")).

(** The raw key of this request and the row its insertion adds. *)
Definition raw_key : string := "atla_" ++ randomBytes_hex.

Definition issued_row (d : Db) (uid name : string) : ApiKeyRow :=
  {| key_id := (key_defaults d).1.1; key_user_id := uid; key_name := name;
     key_hash := sha256_hex raw_key; key_last_used_at := (key_defaults d).2;
     key_created_at := (key_defaults d).1.2 |}.

Definition gate_ : M Outcome := authenticateToken jwt_verify sha256_hex env_JWT_SECRET.

(** [router.get('/', authenticateToken, ...)] of the keys router. *)
Definition route_list_keys : M (Outcome + Reply) := guarded gate_ listApiKeys.

(** [router.post('/', authenticateToken, ...)] of the keys router. *)
Definition route_issue_key (name : option string) : M (Outcome + Reply) :=
  guarded gate_ (issueApiKey name).

(** [router.patch('/:id/role', authenticateToken, requireRole('admin'), ...)] *)
Definition route_update_role (role : option string) : M (Outcome + Reply) :=
  guarded (chain gate_ (requireRole ["admin"])) (updateUserRole role).

(** [router.delete('/:id', authenticateToken, requireRole('admin'), ...)] of
    the users router. *)
Definition route_delete_user : M (Outcome + Reply) :=
  guarded (chain gate_ (requireRole ["admin"])) deleteUser.

End Routes.

(** ** Registration and login *)

Section Accounts.

Variable env_JWT_SECRET : option string.

(** [process.env.JWT_EXPIRES_IN] *)
Variable env_JWT_EXPIRES_IN : option string.

Variable outage : RouteQuery -> option PgError.

(** [jwt.sign(payload, secret, { expiresIn })] *)
Variable jwt_sign : Claims -> string -> string -> string.

(** [bcrypt.hash(password, 10)], with the salt drawn for this request. *)
Variable bcrypt_hash : string -> string.

(** [bcrypt.compare(password, hash)] *)
Variable bcrypt_compare : string -> string -> bool.

(** [/^[^\s@]+@[^\s@]+\.[^\s@]+$/.test(email)] *)
Variable emailRegex_test : string -> bool.

(** The rows the store selects for the filter
    [.or(`email.eq.${identifier},username.eq.${identifier}`)]. *)
Variable or_filter : string -> ProfileRow -> bool.

(** The columns the database fills in on insert into [profiles]: [id] and
    [created_at]. *)
Variable profile_defaults : Db -> string * string.

Definition JWT_EXPIRES_IN : string :=
  if Js.truthy env_JWT_EXPIRES_IN then default "" env_JWT_EXPIRES_IN else "7d".

Definition getUserByEmailOrUsername (identifier : string) : M (option ProfileRow) :=
  let! r := send_route outage (SelectProfileByIdentifier identifier) (fun d =>
      (Supabase.single (filter (λ p, or_filter identifier p = true) (profiles d)),
       d)) in
  run! throw_unless_no_rows (Supabase.error r) in
  ret (Supabase.data r).

Definition getUserCount : M (option nat) :=
  let! r := send_route (A := unit) outage CountProfiles (fun d =>
      ({| Supabase.data := None; Supabase.error := None;
          Supabase.count := Some (length (profiles d)) |},
       d)) in
  run! throw_if_error (Supabase.error r) in
  ret (Supabase.count r).

Definition createUser (username email passwordHash role : string) : M string :=
  let! r := send_route outage (InsertProfile username email passwordHash role) (fun d =>
      let row := {| profile_id := (profile_defaults d).1;
                    profile_username := username; profile_email := email;
                    profile_password_hash := passwordHash; profile_role := role;
                    profile_created_at := (profile_defaults d).2 |} in
      (Supabase.single [row],
       {| profiles := profiles d ++ [row]; api_keys := api_keys d |})) in
  run! throw_if_error (Supabase.error r) in
  match Supabase.data r with
  | Some data => ret (profile_id data)
  | None => throw (TypeError "Cannot read properties of null (reading 'id')")
  end.

(** Handler of [POST /api/auth/register]; the arguments are the properties
    [username], [email] and [password] of the body.  A string of the model is
    its sequence of code units, so [String.length] is [.length]. *)
Definition register (username email password : option string) : M Reply :=
  try_catch
    (if negb (Js.truthy username) || negb (Js.truthy email) || negb (Js.truthy password)
     then sent 400 (ErrorPayload "Username, email, and password are required")
     else if (String.length (default "" password) <? 6)%nat
     then sent 400 (ErrorPayload "Password must be at least 6 characters")
     else if negb (emailRegex_test (default "" email))
     then sent 400 (ErrorPayload "Invalid email format")
     else
       let! existingUser := getUserByEmailOrUsername (default "" email) in
       if bool_decide (is_Some existingUser)
       then sent 409 (ErrorPayload "User with this email or username already exists")
       else
         let passwordHash := bcrypt_hash (default "" password) in
         let! count := getUserCount in
         let isFirstUser := bool_decide (count = Some 0%nat) in
         let role := if isFirstUser then "admin" else "viewer" in
         let! lastInsertRowid :=
           createUser (default "" username) (default "" email) passwordHash role in
         let token :=
           jwt_sign {| userId := lastInsertRowid;
                       claim_username := default "" username;
                       claim_role := role |}
             (JWT_SECRET env_JWT_SECRET) JWT_EXPIRES_IN in
         sent 201 (SessionPayload "User registered successfully" token
                     lastInsertRowid (default "" username) (default "" email) role))
    (fun _ => sent 500 (ErrorPayload "Registration failed")).

(** Handler of [POST /api/auth/login]; the arguments are the properties
    [identifier] and [password] of the body. *)
Definition login (identifier password : option string) : M Reply :=
  try_catch
    (if negb (Js.truthy identifier) || negb (Js.truthy password)
     then sent 400 (ErrorPayload "Email/username and password are required")
     else
       let! found := getUserByEmailOrUsername (default "" identifier) in
       match found with
       | None => sent 401 (ErrorPayload "Invalid credentials")
       | Some user =>
           if negb (bcrypt_compare (default "" password) (profile_password_hash user))
           then sent 401 (ErrorPayload "Invalid credentials")
           else
             let token :=
               jwt_sign {| userId := profile_id user;
                           claim_username := profile_username user;
                           claim_role := profile_role user |}
                 (JWT_SECRET env_JWT_SECRET) JWT_EXPIRES_IN in
             sent 200 (SessionPayload "Login successful" token (profile_id user)
                         (profile_username user) (profile_email user)
                         (profile_role user))
       end)
    (fun _ => sent 500 (ErrorPayload "Login failed")).

End Accounts.

(** The role registration gives: admin to the first profile, viewer after. *)
Definition first_role (d : Db) : string :=
  if bool_decide (length (profiles d) = 0%nat) then "admin" else "viewer".

(** The row registration inserts. *)
Definition new_profile (defaults : Db -> string * string) (d : Db)
    (username email passwordHash : string) : ProfileRow :=
  {| profile_id := (defaults d).1; profile_username := username;
     profile_email := email; profile_password_hash := passwordHash;
     profile_role := first_role d; profile_created_at := (defaults d).2 |}.

Definition bad_credentials : Reply := Sent 401 (ErrorPayload "Invalid credentials").

Definition claims_of (p : ProfileRow) : Claims :=
  {| userId := profile_id p; claim_username := profile_username p;
     claim_role := profile_role p |}.

(** Some profile of the table is an admin. *)
Definition has_admin (d : Db) : Prop :=
  ∃ p, p ∈ profiles d ∧ profile_role p = "admin".

(** ** What identifies a credential *)

(** The columns of an API-key row that the gate must never change: all but
    [last_used_at]. *)
Definition key_identity (k : ApiKeyRow) : string * string * string * string * string :=
  (key_id k, key_user_id k, key_name k, key_hash k, key_created_at k).

(** Two answers of the token codec that name the same user, or both fail. *)
Definition same_identity (r1 r2 : TokenError + Claims) : Prop :=
  match r1, r2 with
  | inl _, inl _ => True
  | inr d1, inr d2 => userId d1 = userId d2
  | _, _ => False
  end.

(** The clock of the next request: [new Date()] now reads [stamp]. *)
Definition tick (stamp : string) (w : World) : World :=
  {| req := req w; db := db w; now := stamp; fault := fault w; trace := trace w |}.

(** The profile a principal stands for: same id, and the role, user name and
    e-mail the principal carries. *)
Definition stands_for (u : User) (p : ProfileRow) : Prop :=
  u_id u = profile_id p
  ∧ u_username u = Some (profile_username p)
  ∧ u_email u = Some (profile_email p)
  ∧ u_role u = Some (profile_role p).

(** ** Concrete instances for the routes *)

Module Scenario.

Definition no_outage : RouteQuery -> option PgError := fun _ => None.

Definition refused : RouteQuery -> option PgError :=
  fun _ => Some Demo.connection_lost.

(** 32 random bytes in hexadecimal. *)
Definition entropy : string :=
  "9f86d081884c7d659a2feaa0c55ad015a3bf4f1b2b0b822cd15d6c15b0f00a08".

Definition defaults (d : Db) : string * string * option string :=
  ("k2", "2026-11-03T00:00:00.000Z", None).

(** ISO timestamps of one zone compare as strings. *)
Definition newer (a b : string) : bool := String.leb b a.

(** The foreign key of [api_keys] modelled as cascading. *)
Definition cascade (id : string) (ks : list ApiKeyRow) : list ApiKeyRow :=
  filter (λ k, key_user_id k ≠ id) ks.

(** A codec whose claims carry out-of-date user names and roles. *)
Definition stale_jwt (token secret : string) : TokenError + Claims :=
  match Demo.jwt token secret with
  | inr d => inr {| userId := userId d; claim_username := "renamed";
                    claim_role := "admin" |}
  | inl e => inl e
  end.

(** A request on route parameter [id]. *)
Definition request_on (id : string) (hs : list (string * string)) : Req :=
  {| headers := list_to_map hs; param_id := id; user := None; authType := None |}.

Definition carol_key : ApiKeyRow :=
  {| key_id := "k9"; key_user_id := "u1"; key_name := "laptop";
     key_hash := Demo.sha "atla_a11ce"; key_last_used_at := None;
     key_created_at := "2026-02-02T00:00:00.000Z" |}.

(** A store with two admins and two keys. *)
Definition carol : ProfileRow :=
  {| profile_id := "u3"; profile_username := "carol";
     profile_email := "carol@atlas.test"; profile_password_hash := "$2a$10$c";
     profile_role := "admin"; profile_created_at := "2026-01-03T00:00:00.000Z" |}.

Definition store2 : Db :=
  {| profiles := [Demo.alice; Demo.bob; carol];
     api_keys := [Demo.bob_key; carol_key] |}.

Definition world_on (d : Db) (r : Req) : World :=
  {| req := r; db := d; now := "2026-11-03T00:00:00.000Z";
     fault := Demo.healthy; trace := [] |}.

Definition issue (name : option string) : M Reply :=
  issueApiKey Demo.sha no_outage entropy defaults name.

Definition list_keys : M Reply := listApiKeys no_outage newer.

Definition patch_role (role : option string) : M Reply :=
  updateUserRole no_outage role.

Definition delete_user : M Reply := deleteUser no_outage cascade.

Definition the_key : string := raw_key entropy.

(** A codec that signs what [Demo.jwt] verifies. *)
Definition sign (c : Claims) (secret ttl : string) : string :=
  "tok-" ++ claim_username c.

Definition hash (password : string) : string := "$2a$10$" ++ password.

Definition compare (password h : string) : bool :=
  bool_decide (h = hash password).

Definition email_ok (email : string) : bool :=
  bool_decide ("@"%char ∈ String.list_ascii_of_string email).

Definition email_or_username (identifier : string) (p : ProfileRow) : bool :=
  bool_decide (profile_email p = identifier)
  || bool_decide (profile_username p = identifier).

Definition profile_ids (d : Db) : string * string :=
  ("u9", "2026-11-03T00:00:00.000Z").

Definition sign_in (identifier password : option string) : M Reply :=
  login None None no_outage sign compare email_or_username identifier password.

Definition sign_up (username email password : option string) : M Reply :=
  register None None no_outage sign hash email_ok email_or_username profile_ids
    username email password.


End Scenario.

(** ** Equations of the monad and of the store helpers *)

Lemma set_db_same (w : World) (d : Db) : d = db w -> set_db d w = w.
Proof. intros ->. by destruct w. Qed.

Lemma db_eta (d : Db) : {| profiles := profiles d; api_keys := api_keys d |} = d.
Proof. by destruct d. Qed.

Lemma filter_none {A} (P : A -> Prop) `{!∀ x, Decision (P x)} (l : list A) :
  (∀ x, x ∈ l -> ¬ P x) -> filter P l = [].
Proof.
  induction l as [|a l IH]; intros HP; [done|].
  rewrite filter_cons_False; [|apply HP; left].
  apply IH. intros x Hx. apply HP. by right.
Qed.

Lemma filter_all {A} (P : A -> Prop) `{!∀ x, Decision (P x)} (l : list A) :
  (∀ x, x ∈ l -> P x) -> filter P l = l.
Proof.
  induction l as [|a l IH]; intros HP; [done|].
  rewrite filter_cons_True; [|apply HP; left].
  f_equal. apply IH. intros x Hx. apply HP. by right.
Qed.

Section GateFacts.

Variable jwt_verify : string -> string -> TokenError + Claims.
Variable sha256_hex : string -> string.
Variable env_JWT_SECRET : option string.

Abbreviation SECRET := (JWT_SECRET env_JWT_SECRET).
Abbreviation gate := (authenticateToken jwt_verify sha256_hex env_JWT_SECRET).
Abbreviation soft := (optionalAuth jwt_verify env_JWT_SECRET).

Lemma getUserById_run (id : string) (w : World) :
  getUserById id w =
    let w1 := log (EvQuery (SelectProfileById id)) w in
    match fault w (SelectProfileById id) with
    | Some e => if bool_decide (code e ≠ "PGRST116")
                then (Throw (StoreExn e), w1) else (Ok None, w1)
    | None => (Ok (Supabase.data (Supabase.single (users_with_id id w))), w1)
    end.
Proof.
  unfold getUserById, bind, Supabase.send, throw_unless_no_rows, users_with_id.
  destruct (fault w (SelectProfileById id)) as [e|]; simpl.
  - by destruct (bool_decide (code e ≠ "PGRST116")).
  - rewrite set_db_same by done.
    by destruct (Supabase.user_columns <$> _) as [|u [|u' l]].
Qed.

(** Whatever the store does, [getUserById] only adds its query to the
    trace and leaves request and tables alone. *)
Lemma getUserById_frame (id : string) (w : World) :
  snd (getUserById id w) = log (EvQuery (SelectProfileById id)) w.
Proof.
  rewrite getUserById_run. simpl.
  destruct (fault w _) as [e|]; [|done].
  by destruct (bool_decide _).
Qed.

Lemma getUserById_found (id : string) (w : World) (u : User) :
  fst (getUserById id w) = Ok (Some u) ->
  u_id u = id ∧ u ∈ Supabase.user_columns <$> profiles (db w).
Proof.
  rewrite getUserById_run. simpl.
  destruct (fault w _) as [e|]; simpl.
  { by destruct (bool_decide _). }
  unfold users_with_id.
  destruct (filter _ _) as [|p [|p' l]] eqn:E; simpl; try done.
  intros [= <-].
  assert (p ∈ filter (λ p, profile_id p = id) (profiles (db w))) as Hp
    by (rewrite E; left).
  apply list_elem_of_filter in Hp as [Hid Hin].
  split; [done|]. by apply list_elem_of_fmap_2.
Qed.

Lemma getApiKeyByHash_run (h : string) (w : World) :
  getApiKeyByHash h w =
    let w1 := log (EvQuery (SelectApiKeyByHash h)) w in
    match fault w (SelectApiKeyByHash h) with
    | Some e => if bool_decide (code e ≠ "PGRST116")
                then (Throw (StoreExn e), w1) else (Ok None, w1)
    | None => match keys_with_hash h w with
              | [k] => (Ok (Some (key_record (db w) k)), w1)
              | _ => (Ok None, w1)
              end
    end.
Proof.
  unfold getApiKeyByHash, bind, Supabase.send, throw_unless_no_rows, keys_with_hash.
  destruct (fault w (SelectApiKeyByHash h)) as [e|]; simpl.
  - by destruct (bool_decide (code e ≠ "PGRST116")).
  - rewrite set_db_same by done.
    by destruct (filter _ _) as [|k [|k' l]].
Qed.

Lemma updateApiKeyLastUsed_run (id : string) (w : World) :
  updateApiKeyLastUsed id w =
    let w1 := log (EvQuery (UpdateApiKeyLastUsed id)) w in
    match fault w (UpdateApiKeyLastUsed id) with
    | Some e => (Throw (StoreExn e), w1)
    | None =>
        (Ok tt, set_db {| profiles := profiles (db w);
                          api_keys := Supabase.touch id (now w) <$> api_keys (db w) |} w1)
    end.
Proof.
  unfold updateApiKeyLastUsed, bind, gets, Supabase.send, throw_if_error.
  by destruct (fault w (UpdateApiKeyLastUsed id)) as [e|].
Qed.

Lemma deleteApiKey_run (id uid : string) (w : World) :
  deleteApiKey id uid w =
    let w1 := log (EvQuery (DeleteApiKey id uid)) w in
    match fault w (DeleteApiKey id uid) with
    | Some e => (Throw (StoreExn e), w1)
    | None =>
        (Ok (Some (length (filter (Supabase.owned_key id uid) (api_keys (db w))))),
         set_db {| profiles := profiles (db w);
                   api_keys := filter (λ k, ¬ Supabase.owned_key id uid k)
                                 (api_keys (db w)) |} w1)
    end.
Proof.
  unfold deleteApiKey, bind, Supabase.send, throw_if_error.
  by destruct (fault w (DeleteApiKey id uid)) as [e|].
Qed.

Lemma truthy_Some (t : string) : Js.truthy (Some t) = true <-> t ≠ "".
Proof.
  unfold Js.truthy. rewrite negb_true_iff, bool_decide_eq_false. done.
Qed.

Lemma truthy_inv (v : option string) :
  Js.truthy v = true -> ∃ t, v = Some t ∧ t ≠ "".
Proof.
  destruct v as [t|]; [|done]. intros Ht. exists t. by rewrite <- truthy_Some.
Qed.

Lemma gate_attached (w : World) :
  is_Some (user (req w)) -> gate w = (Ok Next, w).
Proof.
  intros Hu. unfold authenticateToken, bind, gets.
  by rewrite bool_decide_eq_true_2.
Qed.

(** The bearer-token branch, step by step. *)
Lemma gate_token_run (w : World) (t : string) :
  user (req w) = None -> token_of w = Some t -> t ≠ "" ->
  gate w =
    let w1 := log (EvJwtVerify t SECRET) w in
    match jwt_verify t SECRET with
    | inl _ => (Ok unauthorized_token, w1)
    | inr decoded =>
        match getUserById (userId decoded) w1 with
        | (Ok None, w2) => (Ok stale_token, w2)
        | (Ok (Some u), w2) => (Ok Next, attach u "jwt" w2)
        | (Throw _, w2) => (Ok unauthorized_token, w2)
        end
    end.
Proof.
  intros Hu Ht Hne.
  unfold authenticateToken, verify.
  unfold bind, gets, try_catch, modify, next, respond, ret, throw.
  rewrite Hu, bool_decide_eq_false_2 by (by intros [? ?]).
  unfold token_of in Ht. rewrite Ht, (proj2 (truthy_Some t) Hne). simpl.
  destruct (jwt_verify t SECRET) as [e|decoded]; [done|].
  destruct (getUserById (userId decoded) _) as [[[u|]|e] w2]; done.
Qed.

(** The API-key branch, step by step. *)
Lemma gate_key_run (w : World) (k : string) :
  user (req w) = None -> Js.truthy (token_of w) = false ->
  apiKey_of w = Some k -> k ≠ "" ->
  gate w =
    match getApiKeyByHash (sha256_hex k) (log (EvSha256 k) w) with
    | (Ok None, w2) => (Ok unknown_key, w2)
    | (Ok (Some kr), w2) =>
        match updateApiKeyLastUsed (key_id (kr_row kr))
                (attach (key_principal kr) "apikey" w2) with
        | (Ok _, w4) => (Ok Next, w4)
        | (Throw _, w4) => (Ok store_down, w4)
        end
    | (Throw _, w2) => (Ok store_down, w2)
    end.
Proof.
  intros Hu Ht Hk Hne.
  unfold authenticateToken, sha256.
  unfold bind, gets, try_catch, modify, next, respond, ret.
  rewrite Hu, bool_decide_eq_false_2 by (by intros [? ?]).
  unfold token_of in Ht. unfold apiKey_of in Hk.
  rewrite Ht, Hk, (proj2 (truthy_Some k) Hne). simpl.
  destruct (getApiKeyByHash (sha256_hex k) _) as [[[kr|]|e] w2]; try done.
  unfold attach, key_principal. simpl.
  destruct (updateApiKeyLastUsed _ _) as [[[]|e] w4]; done.
Qed.

Lemma gate_no_credential (w : World) :
  user (req w) = None -> Js.truthy (token_of w) = false ->
  Js.truthy (apiKey_of w) = false ->
  gate w = (Ok no_credential, w).
Proof.
  intros Hu Ht Hk.
  unfold authenticateToken, bind, gets, respond, ret.
  rewrite Hu, bool_decide_eq_false_2 by (by intros [? ?]).
  unfold token_of in Ht. unfold apiKey_of in Hk. by rewrite Ht, Hk.
Qed.

(** The DELETE route: the handler runs on the request the gate let through. *)
Lemma route_delete_key_run (w : World) :
  route_delete_key jwt_verify sha256_hex env_JWT_SECRET w =
    match gate w with
    | (Ok Next, w') => revokeApiKey w'
    | r => r
    end.
Proof.
  unfold route_delete_key, chain, bind, ret.
  by destruct (gate w) as [[[|st b]|e] w'].
Qed.

(** The optional variant, step by step. *)
Lemma soft_run (w : World) :
  soft w =
    match token_of w with
    | Some t =>
        if bool_decide (t = "") then (Ok Next, w) else
        let w1 := log (EvJwtVerify t SECRET) w in
        match jwt_verify t SECRET with
        | inl _ => (Ok Next, w1)
        | inr decoded =>
            match getUserById (userId decoded) w1 with
            | (Ok (Some u), w2) => (Ok Next, set_req (with_user u (req w2)) w2)
            | (_, w2) => (Ok Next, w2)
            end
        end
    | None => (Ok Next, w)
    end.
Proof.
  unfold optionalAuth, verify.
  unfold bind, gets, try_catch, modify, next, ret, throw, token_of.
  destruct (bearer_token _) as [t|]; [|done]. simpl.
  destruct (bool_decide (t = "")); [done|]. simpl.
  destruct (jwt_verify t SECRET) as [e|decoded]; [done|].
  destruct (getUserById (userId decoded) _) as [[[u|]|e] w2]; done.
Qed.

End GateFacts.

Lemma requireRole_run (allowedRoles : list string) (w : World) :
  requireRole allowedRoles w =
    match user (req w) with
    | None => (Ok no_credential, w)
    | Some u =>
        if Js.includes allowedRoles (u_role u) then (Ok Next, w)
        else (Ok (Respond 403 (InsufficientBody "Insufficient permissions"
                                 allowedRoles (u_role u))), w)
    end.
Proof.
  unfold requireRole, bind, gets, next, respond, ret.
  destruct (user (req w)) as [u|]; [|done].
  by destruct (Js.includes allowedRoles (u_role u)).
Qed.

Lemma revokeApiKey_run (w : World) (u : User) :
  user (req w) = Some u ->
  revokeApiKey w =
    match deleteApiKey (param_id (req w)) (u_id u) w with
    | (Ok changes, w') =>
        (Ok (if bool_decide (changes = Some 0%nat) then key_missing else key_revoked), w')
    | (Throw _, w') => (Ok (Respond 500 (ErrorBody "Failed to revoke API key")), w')
    end.
Proof.
  intros Hu. unfold revokeApiKey, bind, gets, try_catch, respond, ret.
  rewrite Hu.
  destruct (deleteApiKey _ _ w) as [[changes|e] w']; [|done].
  by destruct (bool_decide (changes = Some 0%nat)).
Qed.

Lemma length_filter_0 {A} (P : A -> Prop) `{!∀ x, Decision (P x)} (l : list A) :
  length (filter P l) = 0%nat <-> ∀ x, x ∈ l -> ¬ P x.
Proof.
  rewrite length_zero_iff_nil. split.
  - intros E x Hx HPx.
    assert (x ∈ filter P l) as Hin by (by apply list_elem_of_filter).
    rewrite E in Hin. by apply not_elem_of_nil in Hin.
  - apply filter_none; done.
Qed.

(** ** The role guard *)

(** C7. The role guard calls [next()] exactly when the role of the attached
    principal is a member of the allowed roles, answers 403 "Insufficient
    permissions" otherwise (so role viewer against admin, contributor is
    denied and role admin against admin passes; a principal with no role is
    denied), and answers the distinct
    401 "Authentication required" when no principal is attached. *)
Theorem C7_requireRole_membership (allowedRoles : list string) (w : World) :
  (∀ u r, user (req w) = Some u -> u_role u = Some r ->
     (requireRole allowedRoles w = (Ok Next, w) <-> r ∈ allowedRoles)
     ∧ (r ∉ allowedRoles ->
        requireRole allowedRoles w =
          (Ok (Respond 403 (InsufficientBody "Insufficient permissions"
                              allowedRoles (Some r))), w)))
  ∧ (∀ u, user (req w) = Some u -> u_role u = None ->
       status_of (fst (requireRole allowedRoles w)) = Some 403%nat)
  ∧ (∀ u, user (req w) = Some u -> u_role u = Some "viewer" ->
       status_of (fst (requireRole ["admin"; "contributor"] w)) = Some 403%nat)
  ∧ (∀ u, user (req w) = Some u -> u_role u = Some "admin" ->
       fst (requireRole ["admin"] w) = Ok Next)
  ∧ (user (req w) = None ->
       requireRole allowedRoles w =
         (Ok (Respond 401 (ErrorBody "Authentication required")), w)).
Proof.
  repeat apply conj.
  - intros u r Hu Hr. rewrite requireRole_run, Hu, Hr. simpl. split.
    + case_bool_decide; [done|]. split; [intros [=]|done].
    + intros Hnot. by rewrite bool_decide_eq_false_2.
  - intros u Hu Hr. by rewrite requireRole_run, Hu, Hr.
  - intros u Hu Hr. by rewrite requireRole_run, Hu, Hr.
  - intros u Hu Hr. by rewrite requireRole_run, Hu, Hr.
  - intros Hu. by rewrite requireRole_run, Hu.
Qed.

(** ** Revoking an API key *)

(** C8. An authenticated DELETE whose key id does not exist, or exists under
    another owner, answers 404 "API key not found" and leaves the store as it
    was; it never answers 403; it succeeds exactly when a row matches both the
    key id and the owner id, and then removes those rows and no other. *)
Theorem C8_revoke_not_found_never_forbidden (w : World) (u : User) :
  user (req w) = Some u ->
  let id := param_id (req w) in
  let r := revokeApiKey w in
  (∀ b, fst r ≠ Ok (Respond 403 b))
  ∧ (fault w (DeleteApiKey id (u_id u)) = None ->
     ((∀ k, k ∈ api_keys (db w) -> ¬ (key_id k = id ∧ key_user_id k = u_id u)) ->
        fst r = Ok (Respond 404 (ErrorBody "API key not found"))
        ∧ db (snd r) = db w)
     ∧ (fst r = Ok (Respond 200 (MessageBody "API key revoked successfully")) <->
        ∃ k, k ∈ api_keys (db w) ∧ key_id k = id ∧ key_user_id k = u_id u)
     ∧ (∀ k, k ∈ api_keys (db (snd r)) <->
             k ∈ api_keys (db w) ∧ ¬ (key_id k = id ∧ key_user_id k = u_id u))
     ∧ profiles (db (snd r)) = profiles (db w)).
Proof.
  intros Hu id r. subst r.
  rewrite (revokeApiKey_run w u Hu), deleteApiKey_run. fold id. simpl.
  split.
  { intros b. destruct (fault w _); simpl; [done|]. by case_bool_decide. }
  intros ->. simpl.
  pose proof (length_filter_0 (Supabase.owned_key id (u_id u)) (api_keys (db w)))
    as Hlen.
  split; [|split; [|split]].
  - intros Hnone. split.
    + case_bool_decide as Hc; [done|]. exfalso. apply Hc. f_equal. by apply Hlen.
    + rewrite filter_all; [by rewrite db_eta|done].
  - split.
    + case_bool_decide as Hc; [done|]. intros _.
      destruct (filter (Supabase.owned_key id (u_id u)) (api_keys (db w)))
        as [|k l] eqn:E; [done|].
      assert (k ∈ filter (Supabase.owned_key id (u_id u)) (api_keys (db w))) as Hk
        by (rewrite E; left).
      apply list_elem_of_filter in Hk as [[H1 H2] Hin]. by exists k.
    + intros (k & Hin & H1 & H2). case_bool_decide as Hc; [|done].
      exfalso. injection Hc as Hc. apply (proj1 Hlen Hc k Hin). done.
  - intros k. rewrite list_elem_of_filter. unfold Supabase.owned_key. tauto.
  - done.
Qed.

(** ** The status contract of the gate *)

Section Contract.

Variable jwt_verify : string -> string -> TokenError + Claims.
Variable sha256_hex : string -> string.
Variable env_JWT_SECRET : option string.

Abbreviation SECRET := (JWT_SECRET env_JWT_SECRET).
Abbreviation gate := (authenticateToken jwt_verify sha256_hex env_JWT_SECRET).
Abbreviation soft := (optionalAuth jwt_verify env_JWT_SECRET).

Lemma gate_bad_token (w : World) (t : string) (e : TokenError) :
  user (req w) = None -> token_of w = Some t -> t ≠ "" ->
  jwt_verify t SECRET = inl e ->
  gate w = (Ok unauthorized_token, log (EvJwtVerify t SECRET) w).
Proof.
  intros Hu Ht Hne Hv. by rewrite (gate_token_run _ _ _ w t Hu Ht Hne), Hv.
Qed.

Lemma gate_stale_token (w : World) (t : string) (d : Claims) :
  user (req w) = None -> token_of w = Some t -> t ≠ "" ->
  jwt_verify t SECRET = inr d ->
  fault w (SelectProfileById (userId d)) = None ->
  (∀ p, p ∈ profiles (db w) -> profile_id p ≠ userId d) ->
  gate w = (Ok stale_token,
            log (EvQuery (SelectProfileById (userId d)))
              (log (EvJwtVerify t SECRET) w)).
Proof.
  intros Hu Ht Hne Hv Hf Hno.
  rewrite (gate_token_run _ _ _ w t Hu Ht Hne), Hv. simpl.
  rewrite getUserById_run. simpl. rewrite Hf.
  unfold users_with_id. simpl. by rewrite filter_none.
Qed.

Lemma gate_token_store_failure (w : World) (t : string) (d : Claims) (e : PgError) :
  user (req w) = None -> token_of w = Some t -> t ≠ "" ->
  jwt_verify t SECRET = inr d ->
  fault w (SelectProfileById (userId d)) = Some e -> code e ≠ "PGRST116" ->
  gate w = (Ok unauthorized_token,
            log (EvQuery (SelectProfileById (userId d)))
              (log (EvJwtVerify t SECRET) w)).
Proof.
  intros Hu Ht Hne Hv Hf Hc.
  rewrite (gate_token_run _ _ _ w t Hu Ht Hne), Hv. simpl.
  rewrite getUserById_run. simpl. rewrite Hf.
  by rewrite bool_decide_eq_true_2.
Qed.

Lemma gate_unknown_key (w : World) (k : string) :
  user (req w) = None -> Js.truthy (token_of w) = false ->
  apiKey_of w = Some k -> k ≠ "" ->
  fault w (SelectApiKeyByHash (sha256_hex k)) = None ->
  (∀ r, r ∈ api_keys (db w) -> key_hash r ≠ sha256_hex k) ->
  fst (gate w) = Ok unknown_key.
Proof.
  intros Hu Ht Hk Hne Hf Hno.
  rewrite (gate_key_run _ _ _ w k Hu Ht Hk Hne), getApiKeyByHash_run. simpl.
  rewrite Hf. unfold keys_with_hash. simpl. by rewrite filter_none.
Qed.

Lemma gate_key_store_failure (w : World) (k : string) (e : PgError) :
  user (req w) = None -> Js.truthy (token_of w) = false ->
  apiKey_of w = Some k -> k ≠ "" ->
  fault w (SelectApiKeyByHash (sha256_hex k)) = Some e -> code e ≠ "PGRST116" ->
  fst (gate w) = Ok store_down.
Proof.
  intros Hu Ht Hk Hne Hf Hc.
  rewrite (gate_key_run _ _ _ w k Hu Ht Hk Hne), getApiKeyByHash_run. simpl.
  rewrite Hf. by rewrite bool_decide_eq_true_2.
Qed.

(** C1, as the code has it. On a request with no principal attached the gate
    answers 401 when no credential is present, when a verified token names a
    user the store does not have, and when the API key is unknown; it answers
    403 "Invalid or expired token" when the bearer token fails verification;
    it answers 500 when the store fails during the API-key lookup.  The role
    guard answers 403 for a principal whose role is not allowed. *)
Theorem C1_status_contract (w : World) :
  user (req w) = None ->
  let out := fst (gate w) in
  (Js.truthy (token_of w) = false -> Js.truthy (apiKey_of w) = false ->
   out = Ok (Respond 401 (ErrorBody "Authentication required")))
  ∧ (∀ t d, token_of w = Some t -> t ≠ "" -> jwt_verify t SECRET = inr d ->
       fault w (SelectProfileById (userId d)) = None ->
       (∀ p, p ∈ profiles (db w) -> profile_id p ≠ userId d) ->
       out = Ok (Respond 401 (ErrorBody "Invalid token: user not found")))
  ∧ (∀ k, Js.truthy (token_of w) = false -> apiKey_of w = Some k -> k ≠ "" ->
       fault w (SelectApiKeyByHash (sha256_hex k)) = None ->
       (∀ r, r ∈ api_keys (db w) -> key_hash r ≠ sha256_hex k) ->
       out = Ok (Respond 401 (ErrorBody "Invalid API key")))
  ∧ (∀ t e, token_of w = Some t -> t ≠ "" -> jwt_verify t SECRET = inl e ->
       out = Ok (Respond 403 (ErrorBody "Invalid or expired token")))
  ∧ (∀ k e, Js.truthy (token_of w) = false -> apiKey_of w = Some k -> k ≠ "" ->
       fault w (SelectApiKeyByHash (sha256_hex k)) = Some e ->
       code e ≠ "PGRST116" ->
       out = Ok (Respond 500 (ErrorBody "Internal server error during authentication")))
  ∧ (∀ w' allowedRoles u, user (req w') = Some u ->
       Js.includes allowedRoles (u_role u) = false ->
       status_of (fst (requireRole allowedRoles w')) = Some 403%nat).
Proof.
  intros Hu out. subst out. repeat apply conj.
  - intros Ht Hk. by rewrite gate_no_credential.
  - intros t d Ht Hne Hv Hf Hno. by rewrite (gate_stale_token w t d).
  - intros k. by apply gate_unknown_key.
  - intros t e Ht Hne Hv. by rewrite (gate_bad_token w t e).
  - intros k e. by apply gate_key_store_failure.
  - intros w' allowedRoles u Hu' Hr. by rewrite requireRole_run, Hu', Hr.
Qed.

(** C3, as the code has it. A token that fails verification, by signature
    or by expiry alike, is answered 403 "Invalid or expired token"; a verified
    token whose user the store does not have is answered 401 "Invalid token:
    user not found": the two answers differ in status and in body. *)
Theorem C3_bad_token_and_stale_token_differ
    (w1 w2 : World) (t1 t2 : string) (e : TokenError) (d : Claims) :
  user (req w1) = None -> token_of w1 = Some t1 -> t1 ≠ "" ->
  jwt_verify t1 SECRET = inl e ->
  user (req w2) = None -> token_of w2 = Some t2 -> t2 ≠ "" ->
  jwt_verify t2 SECRET = inr d ->
  fault w2 (SelectProfileById (userId d)) = None ->
  (∀ p, p ∈ profiles (db w2) -> profile_id p ≠ userId d) ->
  fst (gate w1) = Ok (Respond 403 (ErrorBody "Invalid or expired token"))
  ∧ fst (gate w2) = Ok (Respond 401 (ErrorBody "Invalid token: user not found"))
  ∧ status_of (fst (gate w1)) ≠ status_of (fst (gate w2)).
Proof.
  intros Hu1 Ht1 Hne1 Hv1 Hu2 Ht2 Hne2 Hv2 Hf Hno.
  rewrite (gate_bad_token w1 t1 e), (gate_stale_token w2 t2 d) by done.
  done.
Qed.

(** C4, on the bearer-token path. When the token verifies and the store
    fails during the lookup of its user, the gate answers 403 "Invalid or
    expired token", the answer it gives to a bad token, and not 500. *)
Theorem C4_token_path_store_failure_answers_403
    (w : World) (t : string) (d : Claims) (e : PgError) :
  user (req w) = None -> token_of w = Some t -> t ≠ "" ->
  jwt_verify t SECRET = inr d ->
  fault w (SelectProfileById (userId d)) = Some e -> code e ≠ "PGRST116" ->
  fst (gate w) = Ok (Respond 403 (ErrorBody "Invalid or expired token")).
Proof.
  intros. by rewrite (gate_token_store_failure w t d e).
Qed.

(** C2, as the code has it. On the API-key path, when the key record is
    found and the [last_used_at] update fails, the gate answers 500 and does
    not call the next handler; the principal and [authType] are already on
    the request, and the tables are unchanged. *)
Theorem C2_touch_failure_answers_500
    (w : World) (k : string) (row : ApiKeyRow) (e : PgError) :
  user (req w) = None -> Js.truthy (token_of w) = false ->
  apiKey_of w = Some k -> k ≠ "" ->
  fault w (SelectApiKeyByHash (sha256_hex k)) = None ->
  keys_with_hash (sha256_hex k) w = [row] ->
  fault w (UpdateApiKeyLastUsed (key_id row)) = Some e ->
  let r := gate w in
  fst r = Ok (Respond 500 (ErrorBody "Internal server error during authentication"))
  ∧ user (req (snd r)) = Some (key_principal (key_record (db w) row))
  ∧ authType (req (snd r)) = Some "apikey"
  ∧ db (snd r) = db w.
Proof.
  intros Hu Ht Hk Hne Hf Hrows Hfu r. subst r.
  rewrite (gate_key_run _ _ _ w k Hu Ht Hk Hne), getApiKeyByHash_run. simpl.
  rewrite Hf. unfold keys_with_hash in *. simpl. rewrite Hrows.
  rewrite updateApiKeyLastUsed_run. simpl. by rewrite Hfu.
Qed.

End Contract.

(** ** Precedence of the bearer token, and the optional variant *)

Lemma getUserById_headers (id : string) (hs : gmap string string) (w : World) :
  getUserById id (with_headers hs w) =
    (fst (getUserById id w), with_headers hs (snd (getUserById id w))).
Proof.
  rewrite !getUserById_run. simpl.
  destruct (fault w (SelectProfileById id)) as [e|]; [|done].
  by destruct (bool_decide (code e ≠ "PGRST116")).
Qed.

Lemma token_of_headers (hs : gmap string string) (w : World) :
  hs !! "authorization" = headers (req w) !! "authorization" ->
  token_of (with_headers hs w) = token_of w.
Proof. unfold token_of. simpl. by intros ->. Qed.

Section Precedence.

Variable jwt_verify : string -> string -> TokenError + Claims.
Variable sha256_hex : string -> string.
Variable env_JWT_SECRET : option string.

Abbreviation SECRET := (JWT_SECRET env_JWT_SECRET).
Abbreviation gate := (authenticateToken jwt_verify sha256_hex env_JWT_SECRET).
Abbreviation soft := (optionalAuth jwt_verify env_JWT_SECRET).

Lemma gate_token_headers (hs : gmap string string) (w : World) :
  token_of (with_headers hs w) = token_of w ->
  Js.truthy (token_of w) = true ->
  gate (with_headers hs w) = (fst (gate w), with_headers hs (snd (gate w))).
Proof.
  intros Hhs Ht. destruct (user (req w)) as [u|] eqn:Hu.
  { rewrite !gate_attached; [done| |]; simpl; by rewrite ?Hu. }
  destruct (truthy_inv _ Ht) as (t & Ht' & Hne).
  rewrite (gate_token_run _ _ _ w t Hu Ht' Hne).
  rewrite (gate_token_run _ _ _ (with_headers hs w) t);
    [|done|by rewrite Hhs|done].
  simpl. destruct (jwt_verify t SECRET) as [e|d]; [done|].
  change (log (EvJwtVerify t SECRET) (with_headers hs w))
    with (with_headers hs (log (EvJwtVerify t SECRET) w)).
  rewrite getUserById_headers.
  by destruct (getUserById (userId d) _) as [[[u|]|e] w2].
Qed.

Lemma gate_token_trace (w : World) :
  Js.truthy (token_of w) = true ->
  ∃ new, trace (snd (gate w)) = (new ++ trace w)%list
         ∧ Forall (λ e, key_event e = false) new.
Proof.
  intros Ht. destruct (user (req w)) as [u|] eqn:Hu.
  { rewrite gate_attached by (by rewrite Hu). exists []. by split. }
  destruct (truthy_inv _ Ht) as (t & Ht' & Hne).
  rewrite (gate_token_run _ _ _ w t Hu Ht' Hne). simpl.
  destruct (jwt_verify t SECRET) as [e|d].
  { exists [EvJwtVerify t SECRET]. split; [done|]. by repeat constructor. }
  pose proof (getUserById_frame (userId d) (log (EvJwtVerify t SECRET) w)) as Hfr.
  exists [EvQuery (SelectProfileById (userId d)); EvJwtVerify t SECRET].
  split; [|by repeat constructor].
  destruct (getUserById (userId d) _) as [[[u|]|e] w2];
    simpl in Hfr; by subst w2.
Qed.

(** C5. On a request whose Authorization header yields a bearer token, the
    gate performs no step of API-key resolution (no digest, no lookup by
    digest, no [last_used_at] update) and its run does not depend on any
    header other than Authorization, X-API-Key included.  When the token
    verifies and the store holds the profile of its [userId], the request
    proceeds with that profile, fetched from the store, as principal; and
    whenever the gate lets such a request through, the principal it attached
    is the store's profile of the token's [userId].  (A request on which an
    earlier middleware already attached a principal passes unchanged, with
    no resolution at all.) *)
Theorem C5_bearer_token_precedence (w : World) :
  Js.truthy (token_of w) = true ->
  (∃ new, trace (snd (gate w)) = (new ++ trace w)%list
          ∧ Forall (λ e, key_event e = false) new)
  ∧ (∀ hs, hs !! "authorization" = headers (req w) !! "authorization" ->
       observe (gate (with_headers hs w)) = observe (gate w))
  ∧ (∀ t d p, user (req w) = None -> token_of w = Some t ->
       jwt_verify t SECRET = inr d ->
       fault w (SelectProfileById (userId d)) = None ->
       filter (λ p, profile_id p = userId d) (profiles (db w)) = [p] ->
       fst (gate w) = Ok Next
       ∧ user (req (snd (gate w))) = Some (Supabase.user_columns p)
       ∧ profile_id p = userId d ∧ p ∈ profiles (db w)
       ∧ authType (req (snd (gate w))) = Some "jwt")
  ∧ (∀ u, user (req w) = None -> fst (gate w) = Ok Next ->
       user (req (snd (gate w))) = Some u ->
       ∃ t d, token_of w = Some t ∧ jwt_verify t SECRET = inr d
              ∧ u_id u = userId d
              ∧ u ∈ Supabase.user_columns <$> profiles (db w))
  ∧ (is_Some (user (req w)) -> gate w = (Ok Next, w)).
Proof.
  intros Ht. repeat apply conj; [| | | |apply gate_attached].
  - by apply gate_token_trace.
  - intros hs Hhs. rewrite gate_token_headers by (by rewrite ?token_of_headers).
    by destruct (gate w).
  - intros t d p Hu Ht' Hv Hf Hp.
    assert (t ≠ "") as Hne by (apply truthy_Some; by rewrite <- Ht').
    rewrite (gate_token_run _ _ _ w t Hu Ht' Hne), Hv. simpl.
    rewrite getUserById_run. simpl. rewrite Hf.
    unfold users_with_id. simpl. rewrite Hp. simpl.
    assert (p ∈ filter (λ p, profile_id p = userId d) (profiles (db w))) as Hin
      by (rewrite Hp; left).
    by apply list_elem_of_filter in Hin as [? ?].
  - intros u Hu Hnext Hattached.
    destruct (truthy_inv _ Ht) as (t & Ht' & Hne).
    revert Hnext Hattached.
    rewrite (gate_token_run _ _ _ w t Hu Ht' Hne). simpl.
    destruct (jwt_verify t SECRET) as [e|d] eqn:Hv; [done|].
    pose proof (getUserById_found (userId d) (log (EvJwtVerify t SECRET) w)) as Hfound.
    destruct (getUserById (userId d) _) as [[[u'|]|e] w2]; try done.
    simpl. intros _ [= <-].
    destruct (Hfound u' eq_refl) as [Hid Hin]. by exists t, d.
Qed.

Lemma soft_headers (hs : gmap string string) (w : World) :
  hs !! "authorization" = headers (req w) !! "authorization" ->
  soft (with_headers hs w) = (fst (soft w), with_headers hs (snd (soft w))).
Proof.
  intros Hhs. rewrite !soft_run, token_of_headers by done.
  destruct (token_of w) as [t|]; [|done].
  case_bool_decide; [done|]. simpl.
  destruct (jwt_verify t SECRET) as [e|d]; [done|].
  change (log (EvJwtVerify t SECRET) (with_headers hs w))
    with (with_headers hs (log (EvJwtVerify t SECRET) w)).
  rewrite getUserById_headers.
  by destruct (getUserById (userId d) _) as [[[u|]|e] w2].
Qed.

Lemma soft_trace (w : World) :
  ∃ new, trace (snd (soft w)) = (new ++ trace w)%list
         ∧ Forall (λ e, key_event e = false) new.
Proof.
  rewrite soft_run.
  destruct (token_of w) as [t|]; [|by exists []].
  case_bool_decide; [by exists []|]. simpl.
  destruct (jwt_verify t SECRET) as [e|d].
  { exists [EvJwtVerify t SECRET]. split; [done|]. by repeat constructor. }
  pose proof (getUserById_frame (userId d) (log (EvJwtVerify t SECRET) w)) as Hfr.
  exists [EvQuery (SelectProfileById (userId d)); EvJwtVerify t SECRET].
  split; [|by repeat constructor].
  destruct (getUserById (userId d) _) as [[[u|]|e] w2];
    simpl in Hfr; by subst w2.
Qed.

(** C6. The optional variant always ends by calling the next handler and
    never sends a response; it performs no step of API-key resolution and its
    run does not depend on any header other than Authorization, X-API-Key
    included.  With no usable token, with a token that fails verification,
    with a verified token whose user the store does not have, and with a
    store that fails during the lookup, it leaves the request as it was, so
    no principal is attached by it; a principal found on the request
    afterwards was there before or is the store's profile of the token's
    [userId]. *)
Theorem C6_optionalAuth_never_rejects (w : World) :
  fst (soft w) = Ok Next
  ∧ (∃ new, trace (snd (soft w)) = (new ++ trace w)%list
            ∧ Forall (λ e, key_event e = false) new)
  ∧ (∀ hs, hs !! "authorization" = headers (req w) !! "authorization" ->
       observe (soft (with_headers hs w)) = observe (soft w))
  ∧ (Js.truthy (token_of w) = false -> snd (soft w) = w)
  ∧ (∀ t e, token_of w = Some t -> jwt_verify t SECRET = inl e ->
       req (snd (soft w)) = req w)
  ∧ (∀ t d, token_of w = Some t -> jwt_verify t SECRET = inr d ->
       (∀ p, p ∈ profiles (db w) -> profile_id p ≠ userId d) ->
       req (snd (soft w)) = req w)
  ∧ (∀ t d e, token_of w = Some t -> jwt_verify t SECRET = inr d ->
       fault w (SelectProfileById (userId d)) = Some e ->
       req (snd (soft w)) = req w)
  ∧ (∀ u, user (req (snd (soft w))) = Some u ->
       user (req w) = Some u
       ∨ ∃ t d, token_of w = Some t ∧ jwt_verify t SECRET = inr d
                ∧ u_id u = userId d
                ∧ u ∈ Supabase.user_columns <$> profiles (db w)).
Proof.
  repeat apply conj.
  - rewrite soft_run. destruct (token_of w) as [t|]; [|done].
    case_bool_decide; [done|]. simpl.
    destruct (jwt_verify t SECRET) as [e|d]; [done|].
    by destruct (getUserById (userId d) _) as [[[u|]|e] w2].
  - apply soft_trace.
  - intros hs Hhs. rewrite soft_headers by done. by destruct (soft w).
  - intros Ht. rewrite soft_run. destruct (token_of w) as [t|]; [|done].
    case_bool_decide as Hne; [done|]. by apply truthy_Some in Hne; rewrite Hne in Ht.
  - intros t e Ht Hv. rewrite soft_run, Ht.
    case_bool_decide; [done|]. simpl. by rewrite Hv.
  - intros t d Ht Hv Hno. rewrite soft_run, Ht.
    case_bool_decide; [done|]. simpl. rewrite Hv, getUserById_run. simpl.
    destruct (fault w _) as [e|]; [by case_bool_decide|].
    unfold users_with_id. simpl. by rewrite filter_none.
  - intros t d e Ht Hv Hf. rewrite soft_run, Ht.
    case_bool_decide; [done|]. simpl. rewrite Hv, getUserById_run. simpl.
    rewrite Hf. by case_bool_decide.
  - intros u. rewrite soft_run.
    destruct (token_of w) as [t|]; [|by left].
    case_bool_decide; [by left|]. simpl.
    destruct (jwt_verify t SECRET) as [e|d] eqn:Hv; [by left|].
    pose proof (getUserById_found (userId d) (log (EvJwtVerify t SECRET) w)) as Hfound.
    pose proof (getUserById_frame (userId d) (log (EvJwtVerify t SECRET) w)) as Hfr.
    destruct (getUserById (userId d) _) as [[[u'|]|e] w2];
      simpl in Hfr; subst w2; simpl; [|by left|by left].
    intros [= <-]. destruct (Hfound u' eq_refl) as [Hid Hin].
    right. by exists t, d.
Qed.

End Precedence.

(** ** How the gate marks the origin of a principal *)

Section Origin.

Variable jwt_verify : string -> string -> TokenError + Claims.
Variable sha256_hex : string -> string.
Variable env_JWT_SECRET : option string.

Abbreviation SECRET := (JWT_SECRET env_JWT_SECRET).
Abbreviation gate := (authenticateToken jwt_verify sha256_hex env_JWT_SECRET).
Abbreviation soft := (optionalAuth jwt_verify env_JWT_SECRET).

(** C9, as the code has it. When the gate resolves the principal of a
    request and lets it through, the request (not the principal object, which
    has no such property) carries [authType]: "jwt" when the principal came
    from a bearer token, "apikey" when it came from an API key. *)
Theorem C9_authType_is_jwt_or_apikey (w : World) :
  user (req w) = None -> fst (gate w) = Ok Next ->
  is_Some (user (req (snd (gate w))))
  ∧ (Js.truthy (token_of w) = true
     ∧ authType (req (snd (gate w))) = Some "jwt"
     ∨ Js.truthy (token_of w) = false ∧ Js.truthy (apiKey_of w) = true
       ∧ authType (req (snd (gate w))) = Some "apikey").
Proof.
  intros Hu. destruct (Js.truthy (token_of w)) eqn:Ht.
  - destruct (truthy_inv _ Ht) as (t & Ht' & Hne).
    rewrite (gate_token_run _ _ _ w t Hu Ht' Hne). simpl.
    destruct (jwt_verify t SECRET) as [e|d]; [done|].
    destruct (getUserById (userId d) _) as [[[u|]|e] w2]; try done.
    simpl. intros _. split; [by eexists|by left].
  - destruct (Js.truthy (apiKey_of w)) eqn:Hk.
    2:{ by rewrite gate_no_credential. }
    destruct (truthy_inv _ Hk) as (k & Hk' & Hne).
    rewrite (gate_key_run _ _ _ w k Hu Ht Hk' Hne).
    destruct (getApiKeyByHash (sha256_hex k) _) as [[[kr|]|e] w2]; try done.
    rewrite updateApiKeyLastUsed_run. simpl.
    destruct (fault w2 _) as [e|]; [done|]. simpl.
    intros _. split; [by eexists|by right].
Qed.

End Origin.

(** ** Extraction of the bearer token *)

Lemma split_no_space (s : string) :
  Js.has_space s = false -> Js.split " " s = [s].
Proof.
  induction s as [|c s IH]; simpl; [done|].
  destruct (decide (c = " "%char)); [done|].
  intros Hs. by rewrite IH.
Qed.

Lemma split_at_first_space (a b : string) :
  Js.has_space a = false ->
  Js.split " " (a ++ String " " b) = a :: Js.split " " b.
Proof.
  induction a as [|c a IH]; simpl.
  - done.
  - destruct (decide (c = " "%char)); [done|].
    intros Ha. by rewrite IH.
Qed.

Lemma append_empty (s : string) : s ++ "" = s.
Proof.
  induction s as [|c s IH]; [done|].
  change (String c (s ++ "") = String c s). by rewrite IH.
Qed.

Lemma split_first_field (fld rest : string) :
  Js.has_space fld = false -> field_end rest ->
  head (Js.split " " (fld ++ rest)) = Some fld.
Proof.
  intros Hf [->|[r ->]].
  - by rewrite append_empty, split_no_space.
  - by rewrite split_at_first_space.
Qed.

Lemma first_field (s : string) :
  ∃ fld rest, s = fld ++ rest ∧ Js.has_space fld = false ∧ field_end rest.
Proof.
  induction s as [|c s (fld & rest & -> & Hf & Hr)].
  - exists "", "". repeat split. by left.
  - destruct (decide (c = " "%char)) as [->|Hc].
    + exists "", (String " " (fld ++ rest)). repeat split. right. by eexists.
    + exists (String c fld), rest. repeat split; [|done].
      simpl. by rewrite decide_False.
Qed.

Lemma space_decompose (h : string) :
  Js.has_space h = true ->
  ∃ scheme fld rest, h = scheme ++ String " " (fld ++ rest)
                     ∧ Js.has_space scheme = false
                     ∧ Js.has_space fld = false ∧ field_end rest.
Proof.
  induction h as [|c h IH]; simpl; [done|].
  destruct (decide (c = " "%char)) as [->|Hc].
  - intros _. destruct (first_field h) as (fld & rest & -> & Hf & Hr).
    by exists "", fld, rest.
  - intros Hh. destruct (IH Hh) as (scheme & fld & rest & -> & Hs & Hf & Hr).
    exists (String c scheme), fld, rest. repeat split; [|done..].
    simpl. by rewrite decide_False.
Qed.

Lemma bearer_token_field (scheme fld rest : string) :
  Js.has_space scheme = false -> Js.has_space fld = false -> field_end rest ->
  bearer_token (Some (scheme ++ String " " (fld ++ rest))) = Some fld.
Proof.
  intros Hs Hf Hr. unfold bearer_token, Js.and_then.
  rewrite bool_decide_eq_false_2 by (by destruct scheme).
  rewrite split_at_first_space by done.
  pose proof (split_first_field fld rest Hf Hr) as Hhd.
  by destruct (Js.split " " (fld ++ rest)).
Qed.

Lemma bearer_token_no_space (h : string) :
  Js.has_space h = false -> Js.truthy (bearer_token (Some h)) = false.
Proof.
  intros Hh. unfold bearer_token, Js.and_then.
  case_bool_decide as E; [by rewrite E|].
  by rewrite split_no_space.
Qed.

Section Extraction.

Variable jwt_verify : string -> string -> TokenError + Claims.
Variable sha256_hex : string -> string.
Variable env_JWT_SECRET : option string.

Abbreviation SECRET := (JWT_SECRET env_JWT_SECRET).
Abbreviation gate := (authenticateToken jwt_verify sha256_hex env_JWT_SECRET).
Abbreviation soft := (optionalAuth jwt_verify env_JWT_SECRET).

Lemma gate_verifies_first (w : World) (t : string) :
  user (req w) = None -> token_of w = Some t -> t ≠ "" ->
  ∃ new, trace (snd (gate w)) = (new ++ EvJwtVerify t SECRET :: trace w)%list
         ∧ Forall (λ e, key_event e = false) new.
Proof.
  intros Hu Ht Hne. rewrite (gate_token_run _ _ _ w t Hu Ht Hne). simpl.
  destruct (jwt_verify t SECRET) as [e|d]; [by exists []|].
  pose proof (getUserById_frame (userId d) (log (EvJwtVerify t SECRET) w)) as Hfr.
  exists [EvQuery (SelectProfileById (userId d))].
  split; [|by repeat constructor].
  destruct (getUserById (userId d) _) as [[[u|]|e] w2];
    simpl in Hfr; by subst w2.
Qed.

Lemma soft_verifies_first (w : World) (t : string) :
  token_of w = Some t -> t ≠ "" ->
  ∃ new, trace (snd (soft w)) = (new ++ EvJwtVerify t SECRET :: trace w)%list
         ∧ Forall (λ e, key_event e = false) new.
Proof.
  intros Ht Hne. rewrite soft_run, Ht, bool_decide_eq_false_2 by done. simpl.
  destruct (jwt_verify t SECRET) as [e|d]; [by exists []|].
  pose proof (getUserById_frame (userId d) (log (EvJwtVerify t SECRET) w)) as Hfr.
  exists [EvQuery (SelectProfileById (userId d))].
  split; [|by repeat constructor].
  destruct (getUserById (userId d) _) as [[[u|]|e] w2];
    simpl in Hfr; by subst w2.
Qed.

Lemma gate_key_first (w : World) (k : string) :
  user (req w) = None -> Js.truthy (token_of w) = false ->
  apiKey_of w = Some k -> k ≠ "" ->
  ∃ new, trace (snd (gate w)) = (new ++ EvSha256 k :: trace w)%list
         ∧ Forall (λ e, verify_event e = false) new.
Proof.
  intros Hu Ht Hk Hne.
  rewrite (gate_key_run _ _ _ w k Hu Ht Hk Hne), getApiKeyByHash_run. simpl.
  destruct (fault w _) as [e|].
  { case_bool_decide; eexists [_]; by repeat constructor. }
  destruct (keys_with_hash _ _) as [|row [|row' l]];
    [eexists [_]; by repeat constructor| |eexists [_]; by repeat constructor].
  rewrite updateApiKeyLastUsed_run. simpl.
  destruct (fault w _) as [e|]; eexists [_; _]; by repeat constructor.
Qed.

(** C10, as the code has it. The gate and the optional variant take as
    bearer token the field between the first and the second space of the
    Authorization header (to the end of the header if there is no second
    space), whatever the word before the first space: every header with a
    space has such a field, and when the field is not empty it is what is
    verified.  A header with no space yields no token: the optional variant
    proceeds at once, and the gate goes on to the API-key check or answers
    401 "Authentication required". *)
Theorem C10_token_is_second_field (w : World) (h : string) :
  user (req w) = None -> headers (req w) !! "authorization" = Some h ->
  (Js.has_space h = true ->
     ∃ scheme fld rest, h = scheme ++ String " " (fld ++ rest)
       ∧ Js.has_space scheme = false ∧ Js.has_space fld = false
       ∧ field_end rest)
  ∧ (∀ scheme fld rest, h = scheme ++ String " " (fld ++ rest) ->
       Js.has_space scheme = false -> Js.has_space fld = false ->
       field_end rest ->
       token_of w = Some fld
       ∧ (fld ≠ "" ->
          (∃ new, trace (snd (gate w)) = (new ++ EvJwtVerify fld SECRET :: trace w)%list
                  ∧ Forall (λ e, key_event e = false) new)
          ∧ (∃ new, trace (snd (soft w)) = (new ++ EvJwtVerify fld SECRET :: trace w)%list
                    ∧ Forall (λ e, key_event e = false) new)))
  ∧ (Js.has_space h = false ->
       Js.truthy (token_of w) = false
       ∧ soft w = (Ok Next, w)
       ∧ (Js.truthy (apiKey_of w) = false ->
          gate w = (Ok (Respond 401 (ErrorBody "Authentication required")), w))
       ∧ (∀ k, apiKey_of w = Some k -> k ≠ "" ->
          ∃ new, trace (snd (gate w)) = (new ++ EvSha256 k :: trace w)%list
                 ∧ Forall (λ e, verify_event e = false) new)).
Proof.
  intros Hu Hh. repeat apply conj.
  - apply space_decompose.
  - intros scheme fld rest -> Hs Hf Hr.
    assert (token_of w = Some fld) as Ht
      by (unfold token_of; rewrite Hh; by apply bearer_token_field).
    split; [done|]. intros Hne. split.
    + by apply gate_verifies_first.
    + by apply soft_verifies_first.
  - intros Hno.
    assert (Js.truthy (token_of w) = false) as Ht
      by (unfold token_of; rewrite Hh; by apply bearer_token_no_space).
    repeat apply conj; [done| | |].
    + rewrite soft_run. destruct (token_of w) as [t|]; [|done].
      case_bool_decide as Hne; [done|].
      by apply truthy_Some in Hne; rewrite Hne in Ht.
    + intros Hk. by apply gate_no_credential.
    + intros k Hk Hne. by apply gate_key_first.
Qed.

End Extraction.

(** ** The theorems at concrete requests *)

Lemma C1_status_contract_witness :
  fst (Demo.gate (Demo.world Demo.healthy (Demo.request []))) =
    Ok (Respond 401 (ErrorBody "Authentication required"))
  ∧ fst (Demo.gate (Demo.world Demo.healthy (Demo.bearer "tok-carol"))) =
      Ok (Respond 401 (ErrorBody "Invalid token: user not found"))
  ∧ fst (Demo.gate (Demo.world Demo.healthy (Demo.with_key "atla_guess"))) =
      Ok (Respond 401 (ErrorBody "Invalid API key"))
  ∧ fst (Demo.gate (Demo.world Demo.healthy (Demo.bearer "garbage"))) =
      Ok (Respond 403 (ErrorBody "Invalid or expired token"))
  ∧ fst (Demo.gate (Demo.world Demo.outage (Demo.with_key "atla_b0b"))) =
      Ok (Respond 500 (ErrorBody "Internal server error during authentication")).
Proof.
  repeat apply conj.
  - apply (C1_status_contract Demo.jwt Demo.sha None
             (Demo.world Demo.healthy (Demo.request [])) eq_refl);
      by vm_compute.
  - apply (C1_status_contract Demo.jwt Demo.sha None
             (Demo.world Demo.healthy (Demo.bearer "tok-carol")) eq_refl)
      with (t := "tok-carol") (d := Demo.carol_claims); try by vm_compute.
    apply Forall_forall. by repeat constructor.
  - apply (C1_status_contract Demo.jwt Demo.sha None
             (Demo.world Demo.healthy (Demo.with_key "atla_guess")) eq_refl)
      with (k := "atla_guess"); try by vm_compute.
    apply Forall_forall. by repeat constructor.
  - apply (C1_status_contract Demo.jwt Demo.sha None
             (Demo.world Demo.healthy (Demo.bearer "garbage")) eq_refl)
      with (t := "garbage") (e := TokenInvalid); by vm_compute.
  - apply (C1_status_contract Demo.jwt Demo.sha None
             (Demo.world Demo.outage (Demo.with_key "atla_b0b")) eq_refl)
      with (k := "atla_b0b") (e := Demo.connection_lost); by vm_compute.
Defined.

(** A malformed bearer token is an invalid credential, and the gate answers
    it 403, not 401. *)
Lemma C1_garbage_token_answers_403 :
  let w := Demo.world Demo.healthy (Demo.bearer "garbage") in
  user (req w) = None
  ∧ token_of w = Some "garbage"
  ∧ Demo.jwt "garbage" Demo.secret = inl TokenInvalid
  ∧ fst (Demo.gate w) = Ok (Respond 403 (ErrorBody "Invalid or expired token"))
  ∧ status_of (fst (Demo.gate w)) ≠ Some 401%nat.
Proof. by vm_compute. Qed.

Lemma C2_touch_failure_witness :
  let r := Demo.gate (Demo.world Demo.touch_fails (Demo.with_key "atla_b0b")) in
  fst r = Ok (Respond 500 (ErrorBody "Internal server error during authentication"))
  ∧ user (req (snd r)) =
      Some (key_principal (key_record Demo.store Demo.bob_key))
  ∧ authType (req (snd r)) = Some "apikey"
  ∧ db (snd r) = Demo.store.
Proof.
  apply (C2_touch_failure_answers_500 Demo.jwt Demo.sha None
           (Demo.world Demo.touch_fails (Demo.with_key "atla_b0b"))
           "atla_b0b" Demo.bob_key Demo.connection_lost);
    by vm_compute.
Defined.

(** The key of bob is found and his principal is built; the [last_used_at]
    update fails; the request is answered 500 and does not proceed. *)
Lemma C2_touch_failure_rejects_request :
  let w := Demo.world Demo.touch_fails (Demo.with_key "atla_b0b") in
  keys_with_hash (Demo.sha "atla_b0b") w = [Demo.bob_key]
  ∧ fault w (SelectApiKeyByHash (Demo.sha "atla_b0b")) = None
  ∧ fault w (UpdateApiKeyLastUsed "k1") = Some Demo.connection_lost
  ∧ fst (Demo.gate w) =
      Ok (Respond 500 (ErrorBody "Internal server error during authentication"))
  ∧ fst (Demo.gate w) ≠ Ok Next.
Proof. by vm_compute. Qed.

Lemma C3_differ_witness :
  fst (Demo.gate (Demo.world Demo.healthy (Demo.bearer "tok-old"))) =
    Ok (Respond 403 (ErrorBody "Invalid or expired token"))
  ∧ fst (Demo.gate (Demo.world Demo.healthy (Demo.bearer "tok-carol"))) =
      Ok (Respond 401 (ErrorBody "Invalid token: user not found"))
  ∧ status_of (fst (Demo.gate (Demo.world Demo.healthy (Demo.bearer "tok-old")))) ≠
      status_of (fst (Demo.gate (Demo.world Demo.healthy (Demo.bearer "tok-carol")))).
Proof.
  apply (C3_bad_token_and_stale_token_differ Demo.jwt Demo.sha None
           (Demo.world Demo.healthy (Demo.bearer "tok-old"))
           (Demo.world Demo.healthy (Demo.bearer "tok-carol"))
           "tok-old" "tok-carol" TokenExpired Demo.carol_claims);
    try by vm_compute.
  apply Forall_forall. by repeat constructor.
Defined.

(** An expired token and a verified token of a deleted user get different
    responses. *)
Lemma C3_expired_and_deleted_user_responses_differ :
  let w1 := Demo.world Demo.healthy (Demo.bearer "tok-old") in
  let w2 := Demo.world Demo.healthy (Demo.bearer "tok-carol") in
  Demo.jwt "tok-old" Demo.secret = inl TokenExpired
  ∧ Demo.jwt "tok-carol" Demo.secret = inr Demo.carol_claims
  ∧ users_with_id "u3" w2 = []
  ∧ fst (Demo.gate w1) = Ok (Respond 403 (ErrorBody "Invalid or expired token"))
  ∧ fst (Demo.gate w2) = Ok (Respond 401 (ErrorBody "Invalid token: user not found"))
  ∧ fst (Demo.gate w1) ≠ fst (Demo.gate w2).
Proof. by vm_compute. Qed.

Lemma C4_token_path_witness :
  fst (Demo.gate (Demo.world Demo.outage (Demo.bearer "tok-alice"))) =
    Ok (Respond 403 (ErrorBody "Invalid or expired token")).
Proof.
  apply (C4_token_path_store_failure_answers_403 Demo.jwt Demo.sha None
           (Demo.world Demo.outage (Demo.bearer "tok-alice"))
           "tok-alice" Demo.alice_claims Demo.connection_lost);
    by vm_compute.
Defined.

Lemma C5_precedence_witness :
  let w := Demo.world Demo.healthy (Demo.both "tok-alice" "atla_b0b") in
  fst (Demo.gate w) = Ok Next
  ∧ user (req (snd (Demo.gate w))) = Some (Supabase.user_columns Demo.alice)
  ∧ profile_id Demo.alice = "u1" ∧ Demo.alice ∈ profiles (db w)
  ∧ authType (req (snd (Demo.gate w))) = Some "jwt".
Proof.
  apply (C5_bearer_token_precedence Demo.jwt Demo.sha None
           (Demo.world Demo.healthy (Demo.both "tok-alice" "atla_b0b")) eq_refl)
    with (t := "tok-alice") (d := Demo.alice_claims); by vm_compute.
Defined.

Lemma C6_never_rejects_witness :
  fst (Demo.soft_gate (Demo.world Demo.outage (Demo.both "tok-alice" "atla_b0b"))) =
    Ok Next
  ∧ req (snd (Demo.soft_gate (Demo.world Demo.outage (Demo.both "tok-alice" "atla_b0b")))) =
      Demo.both "tok-alice" "atla_b0b"
  ∧ req (snd (Demo.soft_gate (Demo.world Demo.healthy (Demo.bearer "tok-carol")))) =
      Demo.bearer "tok-carol"
  ∧ req (snd (Demo.soft_gate (Demo.world Demo.healthy (Demo.bearer "garbage")))) =
      Demo.bearer "garbage".
Proof.
  repeat apply conj.
  - apply (C6_optionalAuth_never_rejects Demo.jwt None).
  - apply (C6_optionalAuth_never_rejects Demo.jwt None
             (Demo.world Demo.outage (Demo.both "tok-alice" "atla_b0b")))
      with (t := "tok-alice") (d := Demo.alice_claims) (e := Demo.connection_lost);
      by vm_compute.
  - apply (C6_optionalAuth_never_rejects Demo.jwt None
             (Demo.world Demo.healthy (Demo.bearer "tok-carol")))
      with (t := "tok-carol") (d := Demo.carol_claims); try by vm_compute.
    apply Forall_forall. by repeat constructor.
  - apply (C6_optionalAuth_never_rejects Demo.jwt None
             (Demo.world Demo.healthy (Demo.bearer "garbage")))
      with (t := "garbage") (e := TokenInvalid); by vm_compute.
Defined.

Lemma C7_requireRole_witness :
  status_of (fst (requireRole ["admin"; "contributor"]
                    (Demo.world Demo.healthy (Demo.signed_in Demo.bob "k1")))) =
    Some 403%nat
  ∧ fst (requireRole ["admin"]
           (Demo.world Demo.healthy (Demo.signed_in Demo.alice "k1"))) = Ok Next
  ∧ fst (requireRole ["admin"] (Demo.world Demo.healthy (Demo.request []))) =
      Ok (Respond 401 (ErrorBody "Authentication required")).
Proof.
  repeat apply conj.
  - by apply (C7_requireRole_membership []
                (Demo.world Demo.healthy (Demo.signed_in Demo.bob "k1")))
      with (u := Supabase.user_columns Demo.bob).
  - by apply (C7_requireRole_membership []
                (Demo.world Demo.healthy (Demo.signed_in Demo.alice "k1")))
      with (u := Supabase.user_columns Demo.alice).
  - by rewrite (proj2 (proj2 (proj2 (proj2 (C7_requireRole_membership ["admin"]
                  (Demo.world Demo.healthy (Demo.request [])))))) eq_refl).
Defined.

Lemma C8_revoke_witness :
  let r := revokeApiKey (Demo.world Demo.healthy (Demo.signed_in Demo.alice "k1")) in
  fst r = Ok (Respond 404 (ErrorBody "API key not found"))
  ∧ db (snd r) = Demo.store.
Proof.
  apply (C8_revoke_not_found_never_forbidden
           (Demo.world Demo.healthy (Demo.signed_in Demo.alice "k1"))
           (Supabase.user_columns Demo.alice) eq_refl); [done|].
  apply Forall_forall. repeat constructor. by intros [_ [=]].
Defined.

Lemma C9_authType_witness :
  let r := Demo.gate (Demo.world Demo.healthy (Demo.with_key "atla_b0b")) in
  is_Some (user (req (snd r)))
  ∧ (Js.truthy (token_of (Demo.world Demo.healthy (Demo.with_key "atla_b0b"))) = true
     ∧ authType (req (snd r)) = Some "jwt"
     ∨ Js.truthy (token_of (Demo.world Demo.healthy (Demo.with_key "atla_b0b"))) = false
       ∧ Js.truthy (apiKey_of (Demo.world Demo.healthy (Demo.with_key "atla_b0b"))) = true
       ∧ authType (req (snd r)) = Some "apikey").
Proof.
  apply (C9_authType_is_jwt_or_apikey Demo.jwt Demo.sha None
           (Demo.world Demo.healthy (Demo.with_key "atla_b0b")));
    by vm_compute.
Defined.

(** The principal of alice comes from her bearer token, and the request is
    marked "jwt", not "token". *)
Lemma C9_bearer_request_is_marked_jwt :
  let w := Demo.world Demo.healthy (Demo.bearer "tok-alice") in
  user (req w) = None
  ∧ token_of w = Some "tok-alice"
  ∧ fst (Demo.gate w) = Ok Next
  ∧ user (req (snd (Demo.gate w))) = Some (Supabase.user_columns Demo.alice)
  ∧ authType (req (snd (Demo.gate w))) = Some "jwt"
  ∧ authType (req (snd (Demo.gate w))) ≠ Some "token".
Proof. by vm_compute. Qed.

Lemma C10_basic_scheme_witness :
  let w := Demo.world Demo.healthy (Demo.request [("authorization", "Basic tok-alice x")]) in
  token_of w = Some "tok-alice"
  ∧ (∃ new, trace (snd (Demo.gate w)) =
              (new ++ EvJwtVerify "tok-alice" Demo.secret :: trace w)%list
            ∧ Forall (λ e, key_event e = false) new).
Proof.
  intros w.
  destruct (C10_token_is_second_field Demo.jwt Demo.sha None w
              "Basic tok-alice x" eq_refl ltac:(by vm_compute)) as (_ & H & _).
  destruct (H "Basic" "tok-alice" " x" eq_refl eq_refl eq_refl
              ltac:(right; by eexists)) as [Ht Hv].
  split; [exact Ht|]. by apply Hv.
Defined.

(** The header has a space, the field after its first space is empty, and
    nothing is verified: the gate answers as if no credential were sent. *)
Lemma C10_double_space_yields_no_token :
  let w := Demo.world Demo.healthy (Demo.request [("authorization", "Bearer  tok-alice")]) in
  Js.has_space "Bearer  tok-alice" = true
  ∧ Js.split " " "Bearer  tok-alice" = ["Bearer"; ""; "tok-alice"]
  ∧ token_of w = Some ""
  ∧ Js.truthy (token_of w) = false
  ∧ Demo.gate w = (Ok (Respond 401 (ErrorBody "Authentication required")), w)
  ∧ trace (snd (Demo.gate w)) = [].
Proof. by vm_compute. Qed.

(** ** Facts on rows and principals *)

Lemma touch_identity (id stamp : string) (k : ApiKeyRow) :
  key_identity (Supabase.touch id stamp k) = key_identity k.
Proof. unfold Supabase.touch. by case_decide. Qed.

Lemma touch_again (id s1 s2 : string) (k : ApiKeyRow) :
  Supabase.touch id s2 (Supabase.touch id s1 k) = Supabase.touch id s2 k.
Proof.
  unfold Supabase.touch.
  destruct (decide (key_id k = id)) as [Hd|Hd]; simpl.
  - by destruct (decide (key_id k = id)).
  - by destruct (decide (key_id k = id)).
Qed.

Lemma touch_commute (id1 id2 s1 s2 : string) (k : ApiKeyRow) :
  id1 ≠ id2 ->
  Supabase.touch id2 s2 (Supabase.touch id1 s1 k) =
    Supabase.touch id1 s1 (Supabase.touch id2 s2 k).
Proof.
  intros Hne. unfold Supabase.touch.
  destruct (decide (key_id k = id1)) as [H1|H1],
           (decide (key_id k = id2)) as [H2|H2]; simpl.
  - congruence.
  - destruct (decide (key_id k = id2)); [done|].
    by destruct (decide (key_id k = id1)).
  - destruct (decide (key_id k = id1)); [done|].
    by destruct (decide (key_id k = id2)).
  - destruct (decide (key_id k = id1)); [done|].
    by destruct (decide (key_id k = id2)).
Qed.

Lemma touch_all_identity (id stamp : string) (l : list ApiKeyRow) :
  key_identity <$> (Supabase.touch id stamp <$> l) = key_identity <$> l.
Proof.
  induction l as [|k l IH]; [done|].
  rewrite !fmap_cons, IH, touch_identity. done.
Qed.

Lemma users_with_id_singleton (id : string) (w : World) (u : User) :
  users_with_id id w = [u] ->
  ∃ p, p ∈ profiles (db w) ∧ profile_id p = id ∧ u = Supabase.user_columns p.
Proof.
  unfold users_with_id.
  destruct (filter _ _) as [|p [|p' l]] eqn:E; simpl; try done.
  intros [= <-]. exists p.
  assert (p ∈ filter (λ p, profile_id p = id) (profiles (db w))) as Hin
    by (rewrite E; left).
  by apply list_elem_of_filter in Hin as [? ?].
Qed.

Lemma keys_with_hash_singleton (h : string) (w : World) (k : ApiKeyRow) :
  keys_with_hash h w = [k] -> k ∈ api_keys (db w) ∧ key_hash k = h.
Proof.
  unfold keys_with_hash. intros E.
  assert (k ∈ filter (λ k, key_hash k = h) (api_keys (db w))) as Hin
    by (rewrite E; left).
  by apply list_elem_of_filter in Hin as [? ?].
Qed.

Lemma user_columns_stands_for (p : ProfileRow) :
  stands_for (Supabase.user_columns p) p.
Proof. by repeat split. Qed.

(** A principal built from a key record stands for the profile joined to the
    key, or carries no role, user name or e-mail when there is none. *)
Lemma key_principal_origin (d : Db) (k : ApiKeyRow) :
  let u := key_principal (key_record d k) in
  u_id u = key_user_id k
  ∧ ((u_role u = None ∧ u_username u = None ∧ u_email u = None)
     ∨ ∃ p, p ∈ profiles d ∧ stands_for u p).
Proof.
  unfold key_principal, key_record, Supabase.owner_of, stands_for. simpl.
  split; [done|].
  destruct (filter (λ p, profile_id p = key_user_id k) (profiles d))
    as [|p l] eqn:E; simpl; [by left|].
  right. exists p.
  assert (p ∈ filter (λ p, profile_id p = key_user_id k) (profiles d)) as Hin
    by (rewrite E; left).
  apply list_elem_of_filter in Hin as [Hid Hin].
  by repeat split.
Qed.

(** ** Further properties of the gate *)

Section GateEffects.

Variable jwt_verify : string -> string -> TokenError + Claims.
Variable sha256_hex : string -> string.
Variable env_JWT_SECRET : option string.

Abbreviation SECRET := (JWT_SECRET env_JWT_SECRET).
Abbreviation gate := (authenticateToken jwt_verify sha256_hex env_JWT_SECRET).
Abbreviation soft := (optionalAuth jwt_verify env_JWT_SECRET).

(** Every way a run of the gate can go, as one case analysis. *)
Ltac gate_cases w :=
  let u := fresh "u" in
  let Hu := fresh "Hu" in
  let Ht := fresh "Ht" in
  let Hk := fresh "Hk" in
  let t := fresh "t" in
  let k := fresh "k" in
  let Ht' := fresh "Ht'" in
  let Hk' := fresh "Hk'" in
  let Hne := fresh "Hne" in
  destruct (user (req w)) as [u|] eqn:Hu;
  [ rewrite (gate_attached jwt_verify sha256_hex env_JWT_SECRET w)
      by (rewrite Hu; by eexists)
  | destruct (Js.truthy (token_of w)) eqn:Ht;
    [ destruct (truthy_inv _ Ht) as (t & Ht' & Hne);
      rewrite (gate_token_run jwt_verify sha256_hex env_JWT_SECRET w t Hu Ht' Hne);
      cbn zeta;
      let e := fresh "e" in
      let d := fresh "d" in
      let Hv := fresh "Hv" in
      destruct (jwt_verify t SECRET) as [e|d] eqn:Hv;
      [ | rewrite getUserById_run; cbn [fault log];
          let Hf := fresh "Hf" in
          let Hrows := fresh "Hrows" in
          destruct (fault w (SelectProfileById (userId d))) eqn:Hf;
          [ case_bool_decide
          | destruct (users_with_id (userId d) (log (EvJwtVerify t SECRET) w))
              as [|? [|? ?]] eqn:Hrows ] ]
    | destruct (Js.truthy (apiKey_of w)) eqn:Hk;
      [ destruct (truthy_inv _ Hk) as (k & Hk' & Hne);
        rewrite (gate_key_run jwt_verify sha256_hex env_JWT_SECRET w k Hu Ht Hk' Hne);
        rewrite getApiKeyByHash_run; cbn [fault log]; cbn zeta;
        let Hf := fresh "Hf" in
        let Hrows := fresh "Hrows" in
        destruct (fault w (SelectApiKeyByHash (sha256_hex k))) eqn:Hf;
        [ case_bool_decide
        | destruct (keys_with_hash (sha256_hex k) (log (EvSha256 k) w))
            as [|? [|? ?]] eqn:Hrows;
          [ | rewrite updateApiKeyLastUsed_run; cbn [fault log attach set_req];
              let Hfu := fresh "Hfu" in
              destruct (fault w (UpdateApiKeyLastUsed _)) eqn:Hfu
            | ] ]
      | rewrite (gate_no_credential jwt_verify sha256_hex env_JWT_SECRET w Hu Ht Hk) ] ] ].

(** Where the principal of a request the gate lets through comes from. *)
Lemma gate_principal_origin (w : World) :
  user (req w) = None -> fst (gate w) = Ok Next ->
  ∃ u, user (req (snd (gate w))) = Some u
       ∧ ((u_role u = None ∧ u_username u = None ∧ u_email u = None)
          ∨ ∃ p, p ∈ profiles (db w) ∧ stands_for u p).
Proof.
  intros Hnone. gate_cases w; simpl; try done.
  - intros _. eexists. split; [done|]. right.
    destruct (users_with_id_singleton _ _ _ Hrows) as (p & Hin & Hid & ->).
    exists p. split; [done|]. apply user_columns_stands_for.
  - intros _. eexists. split; [done|].
    apply (key_principal_origin (db w)).
Qed.

Lemma gate_next_attached (w : World) :
  fst (gate w) = Ok Next -> is_Some (user (req (snd (gate w)))).
Proof.
  gate_cases w; simpl; try done.
  all: intros _; by eexists.
Qed.

Lemma gate_profiles_kept (w : World) :
  profiles (db (snd (gate w))) = profiles (db w).
Proof. gate_cases w; by simpl. Qed.

Lemma gate_keys_kept (w : World) :
  key_identity <$> api_keys (db (snd (gate w))) = key_identity <$> api_keys (db w).
Proof. gate_cases w; simpl; try done. apply touch_all_identity. Qed.

Lemma gate_rejected_db (w : World) :
  fst (gate w) ≠ Ok Next -> db (snd (gate w)) = db w.
Proof. gate_cases w; by simpl. Qed.

Lemma gate_never_throws (w : World) : ∃ o, fst (gate w) = Ok o.
Proof. gate_cases w; by eexists. Qed.

Lemma gate_request_kept (w : World) :
  param_id (req (snd (gate w))) = param_id (req w)
  ∧ headers (req (snd (gate w))) = headers (req w)
  ∧ fault (snd (gate w)) = fault w.
Proof. gate_cases w; by simpl. Qed.

(** What the pipeline [authenticateToken, requireRole(roles)] hands to a
    handler. *)
Lemma pipeline_next_origin (roles : list string) (w w1 : World) :
  user (req w) = None ->
  chain gate (requireRole roles) w = (Ok Next, w1) ->
  profiles (db w1) = profiles (db w)
  ∧ param_id (req w1) = param_id (req w)
  ∧ ∃ u p, user (req w1) = Some u ∧ p ∈ profiles (db w)
           ∧ stands_for u p ∧ profile_role p ∈ roles.
Proof.
  intros Hnone. unfold chain, bind.
  pose proof (gate_principal_origin w Hnone) as Horigin.
  pose proof (gate_profiles_kept w) as Hprof.
  pose proof (gate_request_kept w) as (Hparam & _ & _).
  destruct (gate w) as [[[|st b0]|e] w'] eqn:Hg; simpl in *; [|done|done].
  destruct (Horigin eq_refl) as (u & Hu & Hp).
  rewrite requireRole_run, Hu.
  destruct (Js.includes roles (u_role u)) eqn:Hinc; simpl; [|done].
  intros [= <-]. split; [done|]. split; [done|].
  destruct Hp as [(Hr & _ & _)|(p & Hin & Hst)].
  { by rewrite Hr in Hinc. }
  exists u, p. split; [done|]. split; [done|]. split; [done|].
  destruct Hst as (_ & _ & _ & Hr). rewrite Hr in Hinc. simpl in Hinc.
  by apply bool_decide_eq_true in Hinc.
Qed.

Lemma pipeline_profiles_kept (roles : list string) (w : World) :
  profiles (db (snd (chain gate (requireRole roles) w))) = profiles (db w).
Proof.
  unfold chain, bind. pose proof (gate_profiles_kept w) as Hprof.
  destruct (gate w) as [[[|st b0]|e] w'] eqn:Hg; simpl in *; try done.
  rewrite requireRole_run. destruct (user (req w')) as [u|]; [|done].
  by destruct (Js.includes roles (u_role u)).
Qed.


(** X2. Whatever the request, the gate never changes who holds which
    credential: the profiles are as they were, and so are the id, owner, name,
    digest and creation time of every API-key row, in the same order; it never
    lets an exception escape; and unless it lets the request through the
    tables are exactly as they were. *)
Theorem gate_preserves_credentials (w : World) :
  (∃ o, fst (gate w) = Ok o)
  ∧ profiles (db (snd (gate w))) = profiles (db w)
  ∧ key_identity <$> api_keys (db (snd (gate w))) = key_identity <$> api_keys (db w)
  ∧ (fst (gate w) ≠ Ok Next -> db (snd (gate w)) = db w).
Proof.
  gate_cases w; simpl; repeat apply conj; try done; try (by eexists).
  apply touch_all_identity.
Qed.

(** X3. A request the gate answers 401 or 403 leaves with the request object
    as it came: no principal and no [authType] are left on it. *)
Theorem gate_rejection_leaves_request (w : World) (s : nat) (b : Body) :
  fst (gate w) = Ok (Respond s b) -> s ≠ 500%nat ->
  req (snd (gate w)) = req w.
Proof.
  gate_cases w; simpl; try done.
  all: by intros [= <- <-].
Qed.

(** X4. Re-entry is idempotent: on the request a first run of the gate let
    through, a second run calls the next handler at once, with no external
    call and no change, so a key is stamped once however often the middleware
    is chained. *)
Theorem gate_reentry_is_noop (w : World) :
  fst (gate w) = Ok Next ->
  gate (snd (gate w)) = (Ok Next, snd (gate w)).
Proof.
  intros Hnext. apply gate_attached. by apply gate_next_attached.
Qed.


(** X6. Of a verified token the gate reads the [userId] claim and nothing
    else: with a token codec that names the same user for every token (and
    fails on the same tokens), whatever user name and role its claims carry,
    the run of the gate is the same. *)
Theorem gate_ignores_other_claims
    (jwt_verify' : string -> string -> TokenError + Claims) (w : World) :
  (∀ t, same_identity (jwt_verify t SECRET) (jwt_verify' t SECRET)) ->
  authenticateToken jwt_verify' sha256_hex env_JWT_SECRET w = gate w.
Proof.
  intros Hsame. destruct (user (req w)) as [u|] eqn:Hu.
  { rewrite !gate_attached; [done| |]; rewrite Hu; by eexists. }
  destruct (Js.truthy (token_of w)) eqn:Ht.
  - destruct (truthy_inv _ Ht) as (t & Ht' & Hne).
    rewrite !(gate_token_run _ _ _ w t Hu Ht' Hne). cbn zeta.
    specialize (Hsame t).
    destruct (jwt_verify t SECRET) as [e|d], (jwt_verify' t SECRET) as [e'|d'];
      simpl in Hsame; try done.
    by rewrite Hsame.
  - destruct (Js.truthy (apiKey_of w)) eqn:Hk.
    + destruct (truthy_inv _ Hk) as (k & Hk' & Hne).
      by rewrite !(gate_key_run _ _ _ w k Hu Ht Hk' Hne).
    + by rewrite !gate_no_credential.
Qed.

(** X7. The guarded pipeline [authenticateToken, requireRole(roles)] of the
    routes lets a fresh request through only for a principal that stands for
    a profile the store holds with a role among [roles]; and when it answers
    403 that is the gate's 403 for a bad token or the guard's "Insufficient
    permissions" for an authenticated principal whose role is not allowed. *)
Theorem guarded_pipeline_admits_allowed_roles (roles : list string) (w : World) :
  user (req w) = None ->
  let r := chain gate (requireRole roles) w in
  (fst r = Ok Next ->
     ∃ u p, user (req (snd r)) = Some u ∧ p ∈ profiles (db w)
            ∧ stands_for u p ∧ profile_role p ∈ roles)
  ∧ (∀ b, fst r = Ok (Respond 403 b) ->
       b = ErrorBody "Invalid or expired token"
       ∨ ∃ u, user (req (snd r)) = Some u
              ∧ Js.includes roles (u_role u) = false
              ∧ b = InsufficientBody "Insufficient permissions" roles (u_role u)).
Proof.
  intros Hnone r. subst r. unfold chain, bind.
  pose proof (gate_principal_origin w Hnone) as Horigin.
  destruct (gate w) as [[[|st b0]|e] w'] eqn:Hg; simpl in *.
  - destruct (Horigin eq_refl) as (u & Hu & Hp).
    rewrite requireRole_run, Hu.
    destruct (Js.includes roles (u_role u)) eqn:Hinc; simpl.
    + split; [|done]. intros _.
      destruct Hp as [(Hr & _ & _)|(p & Hin & Hst)].
      { by rewrite Hr in Hinc. }
      exists u, p. split; [done|]. split; [done|]. split; [done|].
      destruct Hst as (_ & _ & _ & Hr). rewrite Hr in Hinc. simpl in Hinc.
      by apply bool_decide_eq_true in Hinc.
    + split; [done|]. intros b [= <-]. right. by exists u.
  - split; [done|]. intros b [= -> <-]. left.
    assert (fst (gate w) = Ok (Respond 403 b0)) as Hfst by (by rewrite Hg).
    revert Hfst. clear. gate_cases w; simpl; try done.
    all: by intros [= <-].
  - done.
Qed.

End GateEffects.

(** ** Further properties of the optional variant and of revocation *)

Lemma revoke_world (w : World) (u : User) :
  user (req w) = Some u ->
  fault w (DeleteApiKey (param_id (req w)) (u_id u)) = None ->
  revokeApiKey w =
    (Ok (if bool_decide (length (filter (Supabase.owned_key (param_id (req w)) (u_id u))
                                   (api_keys (db w))) = 0%nat)
         then key_missing else key_revoked),
     set_db {| profiles := profiles (db w);
               api_keys := filter (λ k, ¬ Supabase.owned_key (param_id (req w)) (u_id u) k)
                             (api_keys (db w)) |}
       (log (EvQuery (DeleteApiKey (param_id (req w)) (u_id u))) w)).
Proof.
  intros Hu Hf. rewrite (revokeApiKey_run w u Hu), deleteApiKey_run. simpl.
  rewrite Hf. f_equal. f_equal.
  case_bool_decide as H1; case_bool_decide as H2; try done.
  - by injection H1 as H1.
  - by rewrite H2 in H1.
Qed.

Lemma filter_twice {A} (P : A -> Prop) `{!∀ x, Decision (P x)} (l : list A) :
  filter P (filter P l) = filter P l.
Proof.
  apply filter_all. intros x Hx. by apply list_elem_of_filter in Hx as [? ?].
Qed.

Lemma filter_out_then_in {A} (P : A -> Prop) `{!∀ x, Decision (P x)} (l : list A) :
  filter P (filter (λ x, ¬ P x) l) = [].
Proof.
  apply filter_none. intros x Hx. by apply list_elem_of_filter in Hx as [? ?].
Qed.

(** X10. Revocation fails closed. When the store fails on the delete, the
    handler answers 500 "Failed to revoke API key" and the tables are as they
    were; on a request with no principal it answers the same 500 without
    sending any query at all. *)
Theorem revoke_failures_answer_500 (w : World) :
  (∀ u e, user (req w) = Some u ->
     fault w (DeleteApiKey (param_id (req w)) (u_id u)) = Some e ->
     fst (revokeApiKey w) = Ok (Respond 500 (ErrorBody "Failed to revoke API key"))
     ∧ db (snd (revokeApiKey w)) = db w)
  ∧ (user (req w) = None ->
     revokeApiKey w = (Ok (Respond 500 (ErrorBody "Failed to revoke API key")), w)).
Proof.
  split.
  - intros u e Hu Hf. rewrite (revokeApiKey_run w u Hu), deleteApiKey_run. simpl.
    by rewrite Hf.
  - intros Hu. unfold revokeApiKey, bind, gets, try_catch, respond, ret, throw.
    by rewrite Hu.
Qed.

Lemma touch_db (w : World) (id s : string) :
  fault w (UpdateApiKeyLastUsed id) = None ->
  db (snd (updateApiKeyLastUsed id (tick s w))) =
    {| profiles := profiles (db w);
       api_keys := Supabase.touch id s <$> api_keys (db w) |}
  ∧ fault (snd (updateApiKeyLastUsed id (tick s w))) = fault w.
Proof.
  intros Hf. rewrite updateApiKeyLastUsed_run. cbn [tick fault log].
  by rewrite Hf.
Qed.

(** X12. The [last_used_at] update is last-write-wins and touches one key
    only: it changes no row with another id and no column but
    [last_used_at]; two updates of the same key, at two times, leave the
    tables as the later one alone does; updates of two different keys leave
    the same tables in either order. *)
Theorem last_used_update_is_last_write_wins
    (w : World) (id1 id2 s1 s2 : string) :
  fault w (UpdateApiKeyLastUsed id1) = None ->
  fault w (UpdateApiKeyLastUsed id2) = None ->
  let once (id s : string) (w0 : World) := snd (updateApiKeyLastUsed id (tick s w0)) in
  (∀ k, k ∈ api_keys (db w) -> key_id k ≠ id1 -> k ∈ api_keys (db (once id1 s1 w)))
  ∧ key_identity <$> api_keys (db (once id1 s1 w)) = key_identity <$> api_keys (db w)
  ∧ profiles (db (once id1 s1 w)) = profiles (db w)
  ∧ db (once id1 s2 (once id1 s1 w)) = db (once id1 s2 w)
  ∧ (id1 ≠ id2 ->
     db (once id2 s2 (once id1 s1 w)) = db (once id1 s1 (once id2 s2 w))).
Proof.
  intros Hf1 Hf2 once. subst once. cbn beta.
  destruct (touch_db w id1 s1 Hf1) as [D1 F1].
  destruct (touch_db w id2 s2 Hf2) as [D2 F2].
  destruct (touch_db w id1 s2 Hf1) as [D1' _].
  repeat apply conj.
  - intros k Hin Hne. rewrite D1. simpl.
    apply list_elem_of_fmap. exists k. split; [|done].
    unfold Supabase.touch. by rewrite decide_False.
  - rewrite D1. apply touch_all_identity.
  - by rewrite D1.
  - destruct (touch_db (snd (updateApiKeyLastUsed id1 (tick s1 w))) id1 s2)
      as [D _]; [by rewrite F1|].
    rewrite D, D1, D1'. simpl. f_equal.
    rewrite <- list_fmap_compose. apply list_fmap_ext.
    intros i k _. apply touch_again.
  - intros Hne.
    destruct (touch_db (snd (updateApiKeyLastUsed id1 (tick s1 w))) id2 s2)
      as [D12 _]; [by rewrite F1|].
    destruct (touch_db (snd (updateApiKeyLastUsed id2 (tick s2 w))) id1 s1)
      as [D21 _]; [by rewrite F2|].
    rewrite D12, D21, D1, D2. simpl. f_equal.
    rewrite <- !list_fmap_compose. apply list_fmap_ext.
    intros i k _. by apply touch_commute.
Qed.

Section SoftEffects.

Variable jwt_verify : string -> string -> TokenError + Claims.
Variable sha256_hex : string -> string.
Variable env_JWT_SECRET : option string.

Abbreviation SECRET := (JWT_SECRET env_JWT_SECRET).
Abbreviation gate := (authenticateToken jwt_verify sha256_hex env_JWT_SECRET).
Abbreviation soft := (optionalAuth jwt_verify env_JWT_SECRET).

(** X8. The optional variant only ever sets [req.user]: it never changes
    the tables, the headers, the route parameter or [authType] (which it
    leaves unset even when it attaches a principal); and with a token that
    verifies and a store that holds the profile of its [userId], it puts that
    profile on the request, over a principal that was already there. *)
Theorem optionalAuth_only_sets_user (w : World) :
  db (snd (soft w)) = db w
  ∧ authType (req (snd (soft w))) = authType (req w)
  ∧ headers (req (snd (soft w))) = headers (req w)
  ∧ param_id (req (snd (soft w))) = param_id (req w)
  ∧ (∀ t d p, token_of w = Some t -> t ≠ "" -> jwt_verify t SECRET = inr d ->
       fault w (SelectProfileById (userId d)) = None ->
       filter (λ p, profile_id p = userId d) (profiles (db w)) = [p] ->
       user (req (snd (soft w))) = Some (Supabase.user_columns p)).
Proof.
  rewrite soft_run. destruct (token_of w) as [t|] eqn:Ht; [|by repeat split].
  case_bool_decide as Hne.
  { repeat split; try done. intros t' d p [= <-] Hne'. by destruct Hne'. }
  cbn zeta. destruct (jwt_verify t SECRET) as [e|d] eqn:Hv.
  { repeat split; try done. intros t' d p [= <-] _ Hv'. congruence. }
  rewrite getUserById_run. cbn [fault log]. cbn zeta.
  destruct (fault w (SelectProfileById (userId d))) as [e|] eqn:Hf.
  { case_bool_decide; repeat split; try done;
      intros t' d' p [= <-] _ Hv' Hf'; congruence. }
  unfold users_with_id. cbn [db log].
  destruct (filter _ _) as [|p [|p' l]] eqn:E; simpl.
  all: repeat split; try done.
  all: intros t' d' p0 [= <-] _ Hv' _ E'.
  all: assert (d' = d) as -> by congruence.
  all: rewrite E in E'; congruence.
Qed.

(** X9. Revocation is final. After the handler has run on an owner's
    request with a store that answers, revoking the same key again answers
    404 and changes nothing; and a raw key whose digest belonged only to rows
    with the revoked id and owner no longer authenticates: the gate answers
    it 401 "Invalid API key". *)
Theorem revoked_key_is_gone (w : World) (u : User) :
  user (req w) = Some u ->
  fault w (DeleteApiKey (param_id (req w)) (u_id u)) = None ->
  let w1 := snd (revokeApiKey w) in
  (fst (revokeApiKey w1) = Ok (Respond 404 (ErrorBody "API key not found"))
   ∧ db (snd (revokeApiKey w1)) = db w1)
  ∧ (∀ w2 k, db w2 = db w1 -> user (req w2) = None ->
       Js.truthy (token_of w2) = false -> apiKey_of w2 = Some k -> k ≠ "" ->
       fault w2 (SelectApiKeyByHash (sha256_hex k)) = None ->
       (∀ row, row ∈ api_keys (db w) -> key_hash row = sha256_hex k ->
          key_id row = param_id (req w) ∧ key_user_id row = u_id u) ->
       fst (gate w2) = Ok (Respond 401 (ErrorBody "Invalid API key"))).
Proof.
  intros Hu Hf w1. subst w1. rewrite (revoke_world w u Hu Hf). cbn [snd].
  split.
  - rewrite (revoke_world _ u); [|done|done]. cbn [fst snd].
    cbn [set_db log req db api_keys profiles param_id].
    rewrite filter_out_then_in, filter_all.
    + done.
    + intros k Hk. by apply list_elem_of_filter in Hk as [? ?].
  - intros w2 k Hdb Hu2 Ht Hk Hne Hf2 Hrows.
    apply (gate_unknown_key jwt_verify sha256_hex env_JWT_SECRET w2 k); try done.
    rewrite Hdb. cbn [set_db log db api_keys].
    intros row Hin Hh. apply list_elem_of_filter in Hin as [Hnot Hin].
    apply Hnot. by apply Hrows.
Qed.

End SoftEffects.

(** ** The DELETE route as a whole *)

Lemma identity_counterpart (l1 l2 : list ApiKeyRow) (k : ApiKeyRow) :
  key_identity <$> l1 = key_identity <$> l2 -> k ∈ l2 ->
  ∃ k1, k1 ∈ l1 ∧ key_identity k1 = key_identity k.
Proof.
  intros Hsame Hin.
  assert (key_identity k ∈ key_identity <$> l1) as Hk
    by (rewrite Hsame; by apply list_elem_of_fmap_2).
  apply list_elem_of_fmap in Hk as (k1 & Hid & Hin1). by exists k1.
Qed.

Section RouteEffects.

Variable jwt_verify : string -> string -> TokenError + Claims.
Variable sha256_hex : string -> string.
Variable env_JWT_SECRET : option string.

Abbreviation gate := (authenticateToken jwt_verify sha256_hex env_JWT_SECRET).
Abbreviation route := (route_delete_key jwt_verify sha256_hex env_JWT_SECRET).

(** X11. The route [DELETE /api/keys/:id] never removes another user's key.
    On a fresh request, every key row of the store either is still there
    afterwards (same id, owner, name, digest and creation time), or the route
    answered 200, the row had the id of the route parameter, and its owner id
    is the id of the principal the gate authenticated. *)
Theorem route_delete_key_spares_foreign_keys (w : World) (k : ApiKeyRow) :
  user (req w) = None -> k ∈ api_keys (db w) ->
  (∃ k', k' ∈ api_keys (db (snd (route w))) ∧ key_identity k' = key_identity k)
  ∨ (fst (route w) = Ok (Respond 200 (MessageBody "API key revoked successfully"))
     ∧ key_id k = param_id (req w)
     ∧ ∃ u, user (req (snd (route w))) = Some u ∧ key_user_id k = u_id u).
Proof.
  intros Hnone Hin. rewrite route_delete_key_run.
  pose proof (gate_keys_kept jwt_verify sha256_hex env_JWT_SECRET w) as Hkeys.
  pose proof (gate_rejected_db jwt_verify sha256_hex env_JWT_SECRET w) as Hrej.
  pose proof (gate_next_attached jwt_verify sha256_hex env_JWT_SECRET w) as Hatt.
  pose proof (gate_request_kept jwt_verify sha256_hex env_JWT_SECRET w) as (Hparam & _ & _).
  destruct (gate w) as [[[|st b]|e] w1] eqn:Hg; simpl in *.
  - destruct (identity_counterpart _ _ k Hkeys Hin) as (k1 & Hin1 & Hid1).
    destruct (Hatt eq_refl) as [u Hu].
    rewrite (revokeApiKey_run w1 u Hu), deleteApiKey_run. cbn zeta.
    destruct (fault w1 _) as [e|]; simpl.
    { left. by exists k1. }
    destruct (decide (Supabase.owned_key (param_id (req w1)) (u_id u) k1))
      as [[Hkid Hkuid]|Hnot].
    + right. injection Hid1 as H1 H2 _ _ _. split; [|split].
      * rewrite bool_decide_eq_false_2; [done|]. intros [= Hlen].
        apply length_zero_iff_nil in Hlen.
        assert (k1 ∈ filter (Supabase.owned_key (param_id (req w1)) (u_id u))
                       (api_keys (db w1))) as Hk1
          by (by apply list_elem_of_filter).
        rewrite Hlen in Hk1. by apply not_elem_of_nil in Hk1.
      * congruence.
      * exists u. split; [done|]. congruence.
    + left. exists k1. split; [|done]. by apply list_elem_of_filter.
  - left. exists k. split; [|done]. by rewrite Hrej.
  - left. exists k. split; [|done]. by rewrite Hrej.
Qed.

End RouteEffects.

(** ** The routes on API keys *)

Section KeyRoutes.

Variable jwt_verify : string -> string -> TokenError + Claims.
Variable sha256_hex : string -> string.
Variable env_JWT_SECRET : option string.
Variable outage : RouteQuery -> option PgError.
Variable randomBytes_hex : string.
Variable key_defaults : Db -> string * string * option string.
Variable newer : string -> string -> bool.

Abbreviation gate := (authenticateToken jwt_verify sha256_hex env_JWT_SECRET).
Abbreviation issue := (issueApiKey sha256_hex outage randomBytes_hex key_defaults).
Abbreviation list_keys := (listApiKeys outage newer).
Abbreviation the_key := (raw_key randomBytes_hex).
Abbreviation new_row := (issued_row sha256_hex randomBytes_hex key_defaults).

Lemma issueApiKey_run (w : World) (u : User) (n : string) :
  user (req w) = Some u -> n ≠ "" ->
  issue (Some n) w =
    let w1 := log (EvSha256 the_key) w in
    match outage (InsertApiKey (u_id u) n (sha256_hex the_key)) with
    | Some e => (Ok (Sent 500 (ErrorPayload "Failed to create API key")), w1)
    | None =>
        (Ok (Sent 201 (KeyCreatedPayload n the_key
               "Make sure to copy your API key now. You won't be able to see it again!")),
         set_db {| profiles := profiles (db w);
                   api_keys := (api_keys (db w) ++ [new_row (db w) (u_id u) n])%list |} w1)
    end.
Proof.
  intros Hu Hn. unfold issueApiKey, createApiKey, req_user_id, sha256, send_route.
  unfold bind, gets, try_catch, modify, sent, ret, throw, throw_if_error.
  rewrite (proj2 (truthy_Some n) Hn). simpl. rewrite Hu.
  destruct (outage _) as [e|]; simpl; [done|].
  unfold issued_row, raw_key. by destruct (key_defaults (db w)) as [[id c] l].
Qed.

Lemma listApiKeys_run (w : World) (u : User) :
  user (req w) = Some u ->
  list_keys w =
    match outage (SelectApiKeysByUser (u_id u)) with
    | Some e => (Ok (Sent 500 (ErrorPayload "Failed to list API keys")), w)
    | None =>
        (Ok (Sent 200 (KeysPayload (Some
               (listing <$> merge_sort (newer_row newer)
                              (filter (λ k, key_user_id k = u_id u) (api_keys (db w))))))),
         w)
    end.
Proof.
  intros Hu. unfold listApiKeys, getApiKeysByUser, req_user_id, send_route.
  unfold bind, gets, try_catch, sent, ret, throw, throw_if_error.
  rewrite Hu. destruct (outage _) as [e|]; simpl; [done|].
  by rewrite set_db_same.
Qed.

Lemma raw_key_not_empty : the_key ≠ "".
Proof. unfold raw_key. intros E. by apply (f_equal String.length) in E. Qed.

(** X13. A key the route issues authenticates its owner afterwards. When
    an authenticated user posts a non-empty name, the store accepts the
    insert and no row holds the digest of the new key yet, the route answers
    201 with the raw key, adds one row (owner: the user; digest: SHA-256 of
    the raw key) and changes nothing else; and on a later request that
    presents the raw key in X-API-Key (and no bearer token) to a store that
    answers, the gate lets it through with a principal whose id is the
    user's. *)
Theorem issued_key_authenticates_owner (w : World) (u : User) (n : string) :
  user (req w) = Some u -> n ≠ "" ->
  outage (InsertApiKey (u_id u) n (sha256_hex the_key)) = None ->
  (∀ row, row ∈ api_keys (db w) -> key_hash row ≠ sha256_hex the_key) ->
  let r := issue (Some n) w in
  fst r = Ok (Sent 201 (KeyCreatedPayload n the_key
            "Make sure to copy your API key now. You won't be able to see it again!"))
  ∧ api_keys (db (snd r)) = (api_keys (db w) ++ [new_row (db w) (u_id u) n])%list
  ∧ profiles (db (snd r)) = profiles (db w)
  ∧ (∀ w2, db w2 = db (snd r) -> user (req w2) = None ->
       Js.truthy (token_of w2) = false -> apiKey_of w2 = Some the_key ->
       (∀ q, fault w2 q = None) ->
       fst (gate w2) = Ok Next
       ∧ ∃ u2, user (req (snd (gate w2))) = Some u2 ∧ u_id u2 = u_id u).
Proof.
  intros Hu Hn Hout Hfresh r. subst r.
  rewrite (issueApiKey_run w u n Hu Hn). cbn zeta. rewrite Hout. cbn [fst snd].
  repeat apply conj; try done.
  intros w2 Hdb Hu2 Ht Hk Hf.
  rewrite (gate_key_run _ _ _ w2 the_key Hu2 Ht Hk raw_key_not_empty).
  rewrite getApiKeyByHash_run. cbn [fault log]. cbn zeta. rewrite Hf.
  unfold keys_with_hash. cbn [db log]. rewrite Hdb. cbn [set_db log db api_keys].
  rewrite filter_app, (filter_none _ (api_keys (db w))) by done.
  rewrite filter_cons_True by done. cbn [app filter list_filter].
  rewrite updateApiKeyLastUsed_run. cbn [fault log attach set_req]. rewrite Hf.
  simpl. split; [done|]. by eexists.
Qed.

(** X14. Issuing a key fails closed. Without a name, or with an empty one,
    the route answers 400 "Key name is required" and hashes and stores
    nothing; when the store refuses the insert it answers 500 and the tables
    are as they were; on a request with no principal it answers 500 and the
    tables are as they were. *)
Theorem issue_key_fails_closed (w : World) (name : option string) :
  (Js.truthy name = false ->
     issue name w = (Ok (Sent 400 (ErrorPayload "Key name is required")), w))
  ∧ (∀ u n e, name = Some n -> n ≠ "" -> user (req w) = Some u ->
       outage (InsertApiKey (u_id u) n (sha256_hex the_key)) = Some e ->
       fst (issue name w) = Ok (Sent 500 (ErrorPayload "Failed to create API key"))
       ∧ db (snd (issue name w)) = db w)
  ∧ (∀ n, name = Some n -> n ≠ "" -> user (req w) = None ->
       fst (issue name w) = Ok (Sent 500 (ErrorPayload "Failed to create API key"))
       ∧ db (snd (issue name w)) = db w).
Proof.
  repeat apply conj.
  - intros Hn. unfold issueApiKey. by rewrite Hn.
  - intros u n e -> Hn Hu Hout. rewrite (issueApiKey_run w u n Hu Hn). cbn zeta.
    by rewrite Hout.
  - intros n -> Hn Hu.
    unfold issueApiKey, createApiKey, req_user_id, sha256, send_route.
    unfold bind, gets, try_catch, modify, sent, ret, throw, throw_if_error.
    rewrite (proj2 (truthy_Some n) Hn). simpl. by rewrite Hu.
Qed.

(** X15. The listing of [GET /api/keys] shows a user their own keys and
    nothing else: with a store that answers, the route answers 200 with
    exactly one item per key row owned by the principal, each made of the id,
    name, last-use time and creation time of the row (never its digest), and
    the request and the tables are as they were. *)
Theorem listing_shows_own_keys_only (w : World) (u : User) :
  user (req w) = Some u ->
  outage (SelectApiKeysByUser (u_id u)) = None ->
  ∃ items, list_keys w = (Ok (Sent 200 (KeysPayload (Some items))), w)
    ∧ items ≡ₚ listing <$> filter (λ k, key_user_id k = u_id u) (api_keys (db w))
    ∧ (∀ item, item ∈ items <->
         ∃ k, k ∈ api_keys (db w) ∧ key_user_id k = u_id u ∧ item = listing k).
Proof.
  intros Hu Hout. rewrite (listApiKeys_run w u Hu), Hout.
  eexists. split; [done|].
  assert (listing <$> merge_sort (newer_row newer)
            (filter (λ k, key_user_id k = u_id u) (api_keys (db w)))
          ≡ₚ listing <$> filter (λ k, key_user_id k = u_id u) (api_keys (db w)))
    as Hperm by (by rewrite merge_sort_Permutation).
  split; [done|].
  intros item. rewrite Hperm, list_elem_of_fmap. split.
  - intros (k & -> & Hin). apply list_elem_of_filter in Hin as [Hown Hin].
    by exists k.
  - intros (k & Hin & Hown & ->). exists k. split; [done|].
    by apply list_elem_of_filter.
Qed.

End KeyRoutes.

(** ** The routes on users *)

Lemma same_id_same_row (l : list ProfileRow) (x y : ProfileRow) :
  NoDup (profile_id <$> l) -> x ∈ l -> y ∈ l ->
  profile_id x = profile_id y -> x = y.
Proof.
  induction l as [|a l IH]; intros Hnd Hx Hy Hid.
  { by apply not_elem_of_nil in Hx. }
  rewrite fmap_cons in Hnd. apply NoDup_cons in Hnd as [Hnotin Hnd].
  apply elem_of_cons in Hx as [->|Hx], Hy as [->|Hy]; [done| | |by apply IH].
  - destruct Hnotin. rewrite Hid. by apply list_elem_of_fmap_2.
  - destruct Hnotin. rewrite <- Hid. by apply list_elem_of_fmap_2.
Qed.

(** With unique ids, an admin who is not the only admin has a fellow admin
    under another id. *)
Lemma other_admin (l : list ProfileRow) (p : ProfileRow) :
  NoDup (profile_id <$> l) -> p ∈ l -> profile_role p = "admin" ->
  length (filter (λ q, profile_role q = "admin") l) ≠ 1%nat ->
  ∃ q, q ∈ l ∧ profile_role q = "admin" ∧ profile_id q ≠ profile_id p.
Proof.
  intros Hnd Hp Hadmin Hlen.
  assert (NoDup (filter (λ q, profile_role q = "admin") l)) as Hnd'
    by (apply NoDup_filter; by apply NoDup_fmap_1 in Hnd).
  assert (p ∈ filter (λ q, profile_role q = "admin") l) as Hpin
    by (by apply list_elem_of_filter).
  destruct (filter (λ q, profile_role q = "admin") l) as [|a [|b rest]] eqn:E.
  - by apply not_elem_of_nil in Hpin.
  - done.
  - assert (a ∈ filter (λ q, profile_role q = "admin") l) as Ha
      by (rewrite E; left).
    assert (b ∈ filter (λ q, profile_role q = "admin") l) as Hb
      by (rewrite E; right; left).
    apply list_elem_of_filter in Ha as [Ha1 Ha2].
    apply list_elem_of_filter in Hb as [Hb1 Hb2].
    destruct (decide (profile_id a = profile_id p)) as [Hia|Hia]; [|by exists a].
    destruct (decide (profile_id b = profile_id p)) as [Hib|Hib]; [|by exists b].
    exfalso. apply NoDup_cons in Hnd' as [Hnotin _]. apply Hnotin.
    rewrite (same_id_same_row l a b Hnd Ha2 Hb2) by congruence. left.
Qed.

Lemma has_admin_profiles (d1 d2 : Db) :
  profiles d1 = profiles d2 -> has_admin d2 -> has_admin d1.
Proof. unfold has_admin. by intros ->. Qed.

Section UserRoutes.

Variable jwt_verify : string -> string -> TokenError + Claims.
Variable sha256_hex : string -> string.
Variable env_JWT_SECRET : option string.
Variable outage : RouteQuery -> option PgError.
Variable on_profile_delete : string -> list ApiKeyRow -> list ApiKeyRow.

Abbreviation gate := (authenticateToken jwt_verify sha256_hex env_JWT_SECRET).
Abbreviation patch_role := (updateUserRole outage).
Abbreviation delete_user := (deleteUser outage on_profile_delete).

Lemma updateUserRole_invalid (w : World) (role : option string) :
  Js.includes ["admin"; "contributor"; "viewer"] role = false ->
  patch_role role w =
    (Ok (Sent 400 (ErrorPayload "Invalid role. Must be admin, contributor, or viewer.")), w).
Proof.
  intros Hr. unfold updateUserRole, bind, gets, try_catch, sent, ret.
  by rewrite Hr.
Qed.

Lemma updateUserRole_run (w : World) (u : User) (r : string) :
  user (req w) = Some u -> r ∈ ["admin"; "contributor"; "viewer"] ->
  patch_role (Some r) w =
    let id := param_id (req w) in
    let update :=
      match outage (UpdateProfileRole id r) with
      | Some _ => (Ok (Sent 500 (ErrorPayload "Failed to update user role")), w)
      | None =>
          (Ok (Sent 200 (RoleUpdatedPayload "User role updated successfully" id r)),
           set_db {| profiles := (λ p, if decide (profile_id p = id)
                                       then with_role r p else p)
                                 <$> profiles (db w);
                     api_keys := api_keys (db w) |} w)
      end in
    if bool_decide (u_id u = id) then
      match outage SelectAdminIds with
      | Some _ => (Ok (Sent 500 (ErrorPayload "Failed to update user role")), w)
      | None =>
          if bool_decide (length (filter (λ p, profile_role p = "admin")
                                    (profiles (db w))) = 1%nat)
             && negb (bool_decide (r = "admin"))
          then (Ok (Sent 400 (ErrorPayload "Cannot demote the only admin user")), w)
          else update
      end
    else update.
Proof.
  intros Hu Hr. unfold updateUserRole, req_user_id, send_route.
  unfold bind, gets, try_catch, sent, ret, throw, throw_if_error.
  assert (Js.includes ["admin"; "contributor"; "viewer"] (Some r) = true) as ->
    by (by apply bool_decide_eq_true).
  simpl. rewrite Hu. simpl.
  destruct (bool_decide (u_id u = param_id (req w))); simpl.
  - destruct (outage SelectAdminIds) as [e|]; simpl; [done|].
    rewrite set_db_same by done. rewrite length_fmap.
    assert (bool_decide (Some r = Some "admin") = bool_decide (r = "admin")) as ->.
    { apply bool_decide_ext. split; [by intros [= ->]|by intros ->]. }
    destruct (bool_decide _ && _); simpl; [done|].
    by destruct (outage (UpdateProfileRole _ _)).
  - by destruct (outage (UpdateProfileRole _ _)).
Qed.

Lemma deleteUser_run (w : World) (u : User) :
  user (req w) = Some u ->
  delete_user w =
    let id := param_id (req w) in
    if bool_decide (u_id u = id)
    then (Ok (Sent 400 (ErrorPayload "Cannot delete your own account")), w)
    else
      match outage (SelectProfileId id) with
      | Some e =>
          (Ok (if bool_decide (code e = "PGRST116")
               then Sent 404 (ErrorPayload "User not found")
               else Sent 500 (ErrorPayload "Failed to delete user")), w)
      | None =>
          match filter (λ p, profile_id p = id) (profiles (db w)) with
          | [_] =>
              match outage (DeleteProfile id) with
              | Some _ => (Ok (Sent 500 (ErrorPayload "Failed to delete user")), w)
              | None =>
                  (Ok (Sent 200 (UserDeletedPayload "User deleted successfully" id)),
                   set_db {| profiles := filter (λ p, profile_id p ≠ id) (profiles (db w));
                             api_keys := on_profile_delete id (api_keys (db w)) |} w)
              end
          | _ => (Ok (Sent 404 (ErrorPayload "User not found")), w)
          end
      end.
Proof.
  intros Hu. unfold deleteUser, req_user_id, send_route.
  unfold bind, gets, try_catch, sent, ret, throw, throw_if_error.
  rewrite Hu. simpl.
  destruct (bool_decide (u_id u = param_id (req w))); simpl; [done|].
  destruct (outage (SelectProfileId _)) as [e|]; simpl.
  { by destruct (bool_decide (code e = "PGRST116")). }
  rewrite set_db_same by done.
  destruct (filter _ _) as [|p [|p' l]]; simpl; try done.
  by destruct (outage (DeleteProfile _)).
Qed.

Lemma updateUserRole_keeps_admin
    (w : World) (u : User) (p : ProfileRow) (role : option string) :
  user (req w) = Some u -> p ∈ profiles (db w) -> profile_id p = u_id u ->
  profile_role p = "admin" -> NoDup (profile_id <$> profiles (db w)) ->
  has_admin (db (snd (patch_role role w))).
Proof.
  intros Hu Hp Hid Hadmin Hnd.
  assert (has_admin (db w)) as Hw by (by exists p).
  destruct (Js.includes ["admin"; "contributor"; "viewer"] role) eqn:Hr.
  2:{ by rewrite updateUserRole_invalid. }
  destruct role as [r|]; [|done]. apply bool_decide_eq_true in Hr.
  rewrite (updateUserRole_run w u r Hu Hr). cbn zeta.
  assert (∀ q, q ∈ profiles (db w) -> profile_role q = "admin" ->
               (profile_id q ≠ param_id (req w) ∨ r = "admin") ->
               has_admin
                 (db (match outage (UpdateProfileRole (param_id (req w)) r) with
                      | Some _ => (Ok (Sent 500 (ErrorPayload "Failed to update user role")), w)
                      | None =>
                          (Ok (Sent 200 (RoleUpdatedPayload "User role updated successfully"
                                           (param_id (req w)) r)),
                           set_db {| profiles := (λ p, if decide (profile_id p = param_id (req w))
                                                       then with_role r p else p)
                                                 <$> profiles (db w);
                                     api_keys := api_keys (db w) |} w)
                      end).2)) as Hupdate.
  { intros q Hq Hqa Hcase. destruct (outage (UpdateProfileRole _ _)); [done|].
    simpl. destruct (decide (profile_id q = param_id (req w))) as [Hq'|Hq'].
    - destruct Hcase as [? | ->]; [done|].
      exists (with_role "admin" q). split; [|done].
      apply list_elem_of_fmap. exists q. by rewrite decide_True.
    - exists q. split; [|done].
      apply list_elem_of_fmap. exists q. by rewrite decide_False. }
  case_bool_decide as Hself.
  - destruct (outage SelectAdminIds); [done|].
    destruct (bool_decide (length _ = 1%nat)) eqn:Hone; simpl.
    + destruct (bool_decide (r = "admin")) eqn:Hra; simpl; [|done].
      apply bool_decide_eq_true in Hra. apply (Hupdate p); auto.
    + apply bool_decide_eq_false in Hone.
      destruct (other_admin _ p Hnd Hp Hadmin Hone) as (q & Hq & Hqa & Hqid).
      apply (Hupdate q); try done. left. congruence.
  - apply (Hupdate p); try done. left. congruence.
Qed.

Lemma deleteUser_keeps_admin (w : World) (u : User) (p : ProfileRow) :
  user (req w) = Some u -> p ∈ profiles (db w) -> profile_id p = u_id u ->
  profile_role p = "admin" ->
  has_admin (db (snd (delete_user w))).
Proof.
  intros Hu Hp Hid Hadmin.
  assert (has_admin (db w)) as Hw by (by exists p).
  rewrite (deleteUser_run w u Hu). cbn zeta.
  case_bool_decide as Hself; [done|].
  destruct (outage (SelectProfileId _)); [done|].
  destruct (filter _ _) as [|q [|q' l]]; try done.
  destruct (outage (DeleteProfile _)); [done|].
  simpl. exists p. split; [|done]. apply list_elem_of_filter. split; [|done].
  congruence.
Qed.

(** X16. The role update checks before it writes. A role that is absent or
    not one of admin, contributor, viewer is answered 400 and nothing is
    read or written; an admin who is the only admin and asks for another role
    for their own id is answered 400 "Cannot demote the only admin user" and
    nothing is written; and when the handler answers 200, the profiles with
    the id of the route parameter have the new role, every other profile and
    every API key is as it was. *)
Theorem role_update_checks_before_writing (w : World) (role : option string) :
  (Js.includes ["admin"; "contributor"; "viewer"] role = false ->
     patch_role role w =
       (Ok (Sent 400 (ErrorPayload "Invalid role. Must be admin, contributor, or viewer.")), w))
  ∧ (∀ u r, role = Some r -> r ∈ ["admin"; "contributor"; "viewer"] ->
       user (req w) = Some u -> u_id u = param_id (req w) ->
       outage SelectAdminIds = None ->
       length (filter (λ p, profile_role p = "admin") (profiles (db w))) = 1%nat ->
       r ≠ "admin" ->
       patch_role role w =
         (Ok (Sent 400 (ErrorPayload "Cannot demote the only admin user")), w))
  ∧ (∀ u payload, user (req w) = Some u ->
       fst (patch_role role w) = Ok (Sent 200 payload) ->
       ∃ r, role = Some r ∧ r ∈ ["admin"; "contributor"; "viewer"]
            ∧ payload = RoleUpdatedPayload "User role updated successfully"
                          (param_id (req w)) r
            ∧ profiles (db (snd (patch_role role w))) =
                ((λ p, if decide (profile_id p = param_id (req w))
                       then with_role r p else p) <$> profiles (db w))
            ∧ api_keys (db (snd (patch_role role w))) = api_keys (db w)).
Proof.
  repeat apply conj.
  - apply updateUserRole_invalid.
  - intros u r -> Hr Hu Hself Hout Hone Hra.
    rewrite (updateUserRole_run w u r Hu Hr). cbn zeta.
    rewrite bool_decide_eq_true_2 by done. rewrite Hout.
    rewrite bool_decide_eq_true_2 by done.
    by rewrite bool_decide_eq_false_2.
  - intros u payload Hu.
    destruct (Js.includes ["admin"; "contributor"; "viewer"] role) eqn:Hr.
    2:{ by rewrite updateUserRole_invalid. }
    destruct role as [r|]; [|done]. apply bool_decide_eq_true in Hr.
    rewrite (updateUserRole_run w u r Hu Hr). cbn zeta.
    assert (∀ x : Result Reply * World,
              x = match outage (UpdateProfileRole (param_id (req w)) r) with
                  | Some _ => (Ok (Sent 500 (ErrorPayload "Failed to update user role")), w)
                  | None =>
                      (Ok (Sent 200 (RoleUpdatedPayload "User role updated successfully"
                                       (param_id (req w)) r)),
                       set_db {| profiles := (λ p, if decide (profile_id p = param_id (req w))
                                                   then with_role r p else p)
                                             <$> profiles (db w);
                                 api_keys := api_keys (db w) |} w)
                  end ->
              fst x = Ok (Sent 200 payload) ->
              ∃ r0, Some r = Some r0 ∧ r0 ∈ ["admin"; "contributor"; "viewer"]
                ∧ payload = RoleUpdatedPayload "User role updated successfully"
                              (param_id (req w)) r0
                ∧ profiles (db (snd x)) =
                    ((λ p, if decide (profile_id p = param_id (req w))
                           then with_role r0 p else p) <$> profiles (db w))
                ∧ api_keys (db (snd x)) = api_keys (db w)) as Hupdate.
    { intros x ->. destruct (outage (UpdateProfileRole _ _)); [done|].
      simpl. intros [= <-]. by exists r. }
    case_bool_decide as Hself.
    + destruct (outage SelectAdminIds); [done|].
      destruct (bool_decide _ && _); [done|]. by apply Hupdate.
    + by apply Hupdate.
Qed.

(** X17. The role route never removes the last admin. On a fresh request,
    whatever its credential and whatever role it asks for, if profile ids are
    unique and the store holds an admin before the route
    [PATCH /api/users/:id/role] runs, it holds an admin afterwards. *)
Theorem role_route_keeps_an_admin (w : World) (role : option string) :
  user (req w) = None -> NoDup (profile_id <$> profiles (db w)) ->
  has_admin (db w) ->
  has_admin (db (snd (route_update_role jwt_verify sha256_hex env_JWT_SECRET
                        outage role w))).
Proof.
  intros Hnone Hnd Hadmin. unfold route_update_role, guarded, gate_, bind.
  pose proof (pipeline_profiles_kept jwt_verify sha256_hex env_JWT_SECRET ["admin"] w)
    as Hkept.
  pose proof (pipeline_next_origin jwt_verify sha256_hex env_JWT_SECRET ["admin"] w)
    as Horigin.
  destruct (chain gate (requireRole ["admin"]) w) as [[[|st b]|e] w1] eqn:Hp;
    simpl in *.
  - destruct (Horigin w1 Hnone eq_refl) as (Hprof & _ & u & p & Hu & Hin & Hst & Hrole).
    apply list_elem_of_singleton in Hrole. destruct Hst as (Hid & _).
    pose proof (updateUserRole_keeps_admin w1 u p role Hu) as Hkeep.
    rewrite Hprof in Hkeep. specialize (Hkeep Hin (eq_sym Hid) Hrole Hnd).
    by destruct (patch_role role w1) as [[rep|e] w2].
  - by apply (has_admin_profiles _ (db w)).
  - by apply (has_admin_profiles _ (db w)).
Qed.

(** X18. Deleting a user checks before it writes. An admin cannot delete
    their own account: the handler answers 400 and sends no query; a route
    parameter that is the id of no profile is answered 404 and nothing is
    written; and when the handler answers 200 the profiles left are those
    with another id, the requester's own among them. *)
Theorem delete_user_checks_before_writing (w : World) (u : User) :
  user (req w) = Some u ->
  (u_id u = param_id (req w) ->
     delete_user w = (Ok (Sent 400 (ErrorPayload "Cannot delete your own account")), w))
  ∧ (u_id u ≠ param_id (req w) -> outage (SelectProfileId (param_id (req w))) = None ->
     (∀ p, p ∈ profiles (db w) -> profile_id p ≠ param_id (req w)) ->
     delete_user w = (Ok (Sent 404 (ErrorPayload "User not found")), w))
  ∧ (∀ payload, fst (delete_user w) = Ok (Sent 200 payload) ->
       payload = UserDeletedPayload "User deleted successfully" (param_id (req w))
       ∧ profiles (db (snd (delete_user w))) =
           filter (λ p, profile_id p ≠ param_id (req w)) (profiles (db w))
       ∧ (∀ p, p ∈ profiles (db w) -> profile_id p = u_id u ->
            p ∈ profiles (db (snd (delete_user w))))).
Proof.
  intros Hu. rewrite (deleteUser_run w u Hu). cbn zeta. repeat apply conj.
  - intros Hself. by rewrite bool_decide_eq_true_2.
  - intros Hself Hout Hno. rewrite bool_decide_eq_false_2 by done.
    rewrite Hout, filter_none; [done|]. intros p Hp. by apply Hno.
  - intros payload. case_bool_decide as Hself; [done|].
    destruct (outage (SelectProfileId _)) as [e|]; [by case_bool_decide|].
    destruct (filter _ _) as [|q [|q' l]]; try done.
    destruct (outage (DeleteProfile _)); [done|].
    simpl. intros [= <-]. repeat split.
    intros p Hp Hid. apply list_elem_of_filter. split; [|done]. congruence.
Qed.

(** X19. The delete route never removes the last admin. On a fresh request,
    whatever its credential, if the store holds an admin before the route
    [DELETE /api/users/:id] runs, it holds an admin afterwards. *)
Theorem delete_user_route_keeps_an_admin (w : World) :
  user (req w) = None -> has_admin (db w) ->
  has_admin (db (snd (route_delete_user jwt_verify sha256_hex env_JWT_SECRET
                        outage on_profile_delete w))).
Proof.
  intros Hnone Hadmin. unfold route_delete_user, guarded, gate_, bind.
  pose proof (pipeline_profiles_kept jwt_verify sha256_hex env_JWT_SECRET ["admin"] w)
    as Hkept.
  pose proof (pipeline_next_origin jwt_verify sha256_hex env_JWT_SECRET ["admin"] w)
    as Horigin.
  destruct (chain gate (requireRole ["admin"]) w) as [[[|st b]|e] w1] eqn:Hp;
    simpl in *.
  - destruct (Horigin w1 Hnone eq_refl) as (Hprof & _ & u & p & Hu & Hin & Hst & Hrole).
    apply list_elem_of_singleton in Hrole. destruct Hst as (Hid & _).
    pose proof (deleteUser_keeps_admin w1 u p Hu) as Hkeep.
    rewrite Hprof in Hkeep. specialize (Hkeep Hin (eq_sym Hid) Hrole).
    by destruct (delete_user w1) as [[rep|e] w2].
  - by apply (has_admin_profiles _ (db w)).
  - by apply (has_admin_profiles _ (db w)).
Qed.

End UserRoutes.

(** ** The key routes as a whole, and the token format *)

Lemma identity_counterpart_back (l1 l2 : list ApiKeyRow) (k : ApiKeyRow) :
  key_identity <$> l1 = key_identity <$> l2 -> k ∈ l1 ->
  ∃ k2, k2 ∈ l2 ∧ key_identity k2 = key_identity k.
Proof. intros Hsame. by apply identity_counterpart. Qed.

Section KeyRoutesWhole.

Variable jwt_verify : string -> string -> TokenError + Claims.
Variable sha256_hex : string -> string.
Variable env_JWT_SECRET : option string.
Variable outage : RouteQuery -> option PgError.
Variable randomBytes_hex : string.
Variable key_defaults : Db -> string * string * option string.
Variable newer : string -> string -> bool.

Abbreviation gate := (authenticateToken jwt_verify sha256_hex env_JWT_SECRET).
Abbreviation issue := (issueApiKey sha256_hex outage randomBytes_hex key_defaults).
Abbreviation the_key := (raw_key randomBytes_hex).
Abbreviation issue_route :=
  (route_issue_key jwt_verify sha256_hex env_JWT_SECRET outage randomBytes_hex
     key_defaults).
Abbreviation list_route :=
  (route_list_keys jwt_verify sha256_hex env_JWT_SECRET outage newer).

(** X20. The route [POST /api/keys] creates keys for the caller only. On a
    fresh request, every key row of the store after the route either was
    there before (same id, owner, name, digest and creation time), or the
    route answered 201 and the row is owned by the principal the gate
    authenticated, with the posted name and the digest of the raw key of
    the response. *)
Theorem issue_route_adds_only_own_key
    (w : World) (name : option string) (k' : ApiKeyRow) :
  user (req w) = None -> k' ∈ api_keys (db (snd (issue_route name w))) ->
  (∃ k, k ∈ api_keys (db w) ∧ key_identity k = key_identity k')
  ∨ ∃ u n, user (req (snd (issue_route name w))) = Some u
           ∧ name = Some n ∧ n ≠ ""
           ∧ key_user_id k' = u_id u ∧ key_name k' = n
           ∧ key_hash k' = sha256_hex the_key
           ∧ fst (issue_route name w) =
               Ok (inr (Sent 201 (KeyCreatedPayload n the_key
                  "Make sure to copy your API key now. You won't be able to see it again!"))).
Proof.
  intros Hnone. unfold route_issue_key, guarded, gate_, bind.
  pose proof (gate_keys_kept jwt_verify sha256_hex env_JWT_SECRET w) as Hkeys.
  pose proof (gate_rejected_db jwt_verify sha256_hex env_JWT_SECRET w) as Hrej.
  pose proof (gate_next_attached jwt_verify sha256_hex env_JWT_SECRET w) as Hatt.
  destruct (gate w) as [[[|st b]|e] w1] eqn:Hg; simpl in *.
  - destruct (Hatt eq_refl) as [u Hu].
    destruct (Js.truthy name) eqn:Hn.
    + destruct (truthy_inv _ Hn) as (n & -> & Hne).
      rewrite (issueApiKey_run sha256_hex outage randomBytes_hex key_defaults
                 w1 u n Hu Hne). cbn zeta.
      destruct (outage _) as [e|]; simpl.
      * intros Hin. left. by apply (identity_counterpart_back _ _ k' Hkeys).
      * intros Hin. apply elem_of_app in Hin as [Hin|Hin].
        { left. by apply (identity_counterpart_back _ _ k' Hkeys). }
        apply list_elem_of_singleton in Hin as ->.
        right. by exists u, n.
    + unfold issueApiKey. rewrite Hn. simpl.
      intros Hin. left. by apply (identity_counterpart_back _ _ k' Hkeys).
  - intros Hin. left. exists k'. split; [|done]. by rewrite <- Hrej.
  - intros Hin. left. exists k'. split; [|done]. by rewrite <- Hrej.
Qed.

(** X21. The route [GET /api/keys] lists the caller's keys only. On a
    fresh request that the route answers with a listing, every item is the
    id, name and creation time of a key row the store holds for the
    principal the gate authenticated. *)
Theorem list_route_shows_own_keys_only (w : World) (items : list KeyListing) :
  user (req w) = None ->
  fst (list_route w) = Ok (inr (Sent 200 (KeysPayload (Some items)))) ->
  ∃ u, user (req (snd (list_route w))) = Some u
       ∧ ∀ item, item ∈ items ->
           ∃ k, k ∈ api_keys (db w) ∧ key_user_id k = u_id u
                ∧ listed_id item = key_id k ∧ listed_name item = key_name k
                ∧ listed_created_at item = key_created_at k.
Proof.
  intros Hnone. unfold route_list_keys, guarded, gate_, bind.
  pose proof (gate_keys_kept jwt_verify sha256_hex env_JWT_SECRET w) as Hkeys.
  pose proof (gate_next_attached jwt_verify sha256_hex env_JWT_SECRET w) as Hatt.
  destruct (gate w) as [[[|st b]|e] w1] eqn:Hg; simpl in *; [|done|done].
  destruct (Hatt eq_refl) as [u Hu].
  rewrite (listApiKeys_run outage newer w1 u Hu).
  destruct (outage _) as [e|]; simpl; [done|].
  intros [= <-]. exists u. split; [done|].
  intros item Hitem. apply list_elem_of_fmap in Hitem as (k1 & -> & Hk1).
  rewrite merge_sort_Permutation in Hk1.
  apply list_elem_of_filter in Hk1 as [Hown Hk1].
  destruct (identity_counterpart_back _ _ k1 Hkeys Hk1) as (k & Hk & Hid).
  injection Hid as H1 H2 H3 H4 H5. exists k. simpl. repeat split; congruence.
Qed.

End KeyRoutesWhole.

Lemma split_fields_no_space (s f : string) :
  f ∈ Js.split " " s -> Js.has_space f = false.
Proof.
  revert f. induction s as [|c s IH]; simpl; intros f Hf.
  - by apply list_elem_of_singleton in Hf as ->.
  - destruct (decide (c = " "%char)) as [->|Hc].
    + apply elem_of_cons in Hf as [->|Hf]; [done|]. by apply IH.
    + destruct (Js.split " " s) as [|fld flds].
      * apply list_elem_of_singleton in Hf as ->. simpl. by rewrite decide_False.
      * apply elem_of_cons in Hf as [->|Hf].
        -- simpl. rewrite decide_False by done. apply IH. left.
        -- apply IH. by right.
Qed.

(** X22. The token format round trip. The header [Bearer <token>] of a
    client yields exactly [<token>] for any token without a space; no header
    yields no token; and whatever the header, the token handed to the codec
    never contains a space. *)
Theorem bearer_token_round_trip :
  (∀ t, Js.has_space t = false -> bearer_token (Some ("Bearer " ++ t)) = Some t)
  ∧ bearer_token None = None
  ∧ (∀ h t, bearer_token (Some h) = Some t -> Js.has_space t = false).
Proof.
  repeat apply conj.
  - intros t Ht.
    change ("Bearer " ++ t) with ("Bearer" ++ String " " t).
    rewrite <- (append_empty t) at 1.
    apply bearer_token_field; try done. by left.
  - done.
  - intros h t. unfold bearer_token, Js.and_then.
    case_bool_decide as Hh; [intros [= <-]; by rewrite Hh|].
    intros Hlook. apply (split_fields_no_space h).
    by apply list_elem_of_lookup_2 in Hlook.
Qed.

Lemma issue_route_witness :
  let w := Demo.world Demo.healthy (Demo.bearer "tok-alice") in
  let route := route_issue_key Demo.jwt Demo.sha None Scenario.no_outage
                 Scenario.entropy Scenario.defaults (Some "deploy") in
  let row := issued_row Demo.sha Scenario.entropy Scenario.defaults Demo.store
               "u1" "deploy" in
  (∃ k, k ∈ api_keys (db w) ∧ key_identity k = key_identity row)
  ∨ ∃ u n, user (req (snd (route w))) = Some u
           ∧ Some "deploy" = Some n ∧ n ≠ ""
           ∧ key_user_id row = u_id u ∧ key_name row = n
           ∧ key_hash row = Demo.sha Scenario.the_key
           ∧ fst (route w) =
               Ok (inr (Sent 201 (KeyCreatedPayload n Scenario.the_key
                  "Make sure to copy your API key now. You won't be able to see it again!"))).
Proof.
  apply (issue_route_adds_only_own_key Demo.jwt Demo.sha None
           Scenario.no_outage Scenario.entropy Scenario.defaults
           (Demo.world Demo.healthy (Demo.bearer "tok-alice")) (Some "deploy")).
  - reflexivity.
  - vm_compute. do 1 right. left.
Defined.

Lemma list_route_witness :
  ∃ u, user (req (snd (route_list_keys Demo.jwt Demo.sha None Scenario.no_outage
                         Scenario.newer
                         (Scenario.world_on Scenario.store2 (Demo.bearer "tok-bob"))))) =
         Some u
       ∧ ∀ item, item ∈ [listing Demo.bob_key] ->
           ∃ k, k ∈ api_keys Scenario.store2 ∧ key_user_id k = u_id u
                ∧ listed_id item = key_id k ∧ listed_name item = key_name k
                ∧ listed_created_at item = key_created_at k.
Proof.
  apply (list_route_shows_own_keys_only Demo.jwt Demo.sha None Scenario.no_outage
           Scenario.newer
           (Scenario.world_on Scenario.store2 (Demo.bearer "tok-bob"))
           [listing Demo.bob_key] eq_refl).
  by vm_compute.
Defined.

Lemma bearer_token_round_trip_witness :
  bearer_token (Some "Bearer tok-alice") = Some "tok-alice".
Proof.
  by apply (proj1 bearer_token_round_trip "tok-alice").
Defined.

(** ** Registration and login *)

Lemma bearer_header_token (t : string) :
  Js.has_space t = false -> bearer_token (Some ("Bearer " ++ t)) = Some t.
Proof.
  intros Ht. change ("Bearer " ++ t) with ("Bearer" ++ String " " t).
  rewrite <- (append_empty t) at 1.
  apply bearer_token_field; try done. by left.
Qed.

Section AccountFacts.

Variable jwt_verify : string -> string -> TokenError + Claims.
Variable sha256_hex : string -> string.
Variable env_JWT_SECRET : option string.
Variable env_JWT_EXPIRES_IN : option string.
Variable outage : RouteQuery -> option PgError.
Variable jwt_sign : Claims -> string -> string -> string.
Variable bcrypt_hash : string -> string.
Variable bcrypt_compare : string -> string -> bool.
Variable emailRegex_test : string -> bool.
Variable or_filter : string -> ProfileRow -> bool.
Variable profile_defaults : Db -> string * string.

Abbreviation SECRET := (JWT_SECRET env_JWT_SECRET).
Abbreviation TTL := (JWT_EXPIRES_IN env_JWT_EXPIRES_IN).
Abbreviation gate := (authenticateToken jwt_verify sha256_hex env_JWT_SECRET).
Abbreviation sign_in :=
  (login env_JWT_SECRET env_JWT_EXPIRES_IN outage jwt_sign bcrypt_compare or_filter).
Abbreviation sign_up :=
  (register env_JWT_SECRET env_JWT_EXPIRES_IN outage jwt_sign bcrypt_hash
     emailRegex_test or_filter profile_defaults).
Abbreviation matching i w :=
  (filter (λ p, or_filter i p = true) (profiles (db w))).

Lemma login_run (w : World) (i pw : string) :
  i ≠ "" -> pw ≠ "" ->
  sign_in (Some i) (Some pw) w =
    match outage (SelectProfileByIdentifier i) with
    | Some e =>
        (Ok (if bool_decide (code e ≠ "PGRST116")
             then Sent 500 (ErrorPayload "Login failed") else bad_credentials), w)
    | None =>
        match matching i w with
        | [p] =>
            (Ok (if bcrypt_compare pw (profile_password_hash p)
                 then Sent 200 (SessionPayload "Login successful"
                                  (jwt_sign (claims_of p) SECRET TTL)
                                  (profile_id p) (profile_username p)
                                  (profile_email p) (profile_role p))
                 else bad_credentials), w)
        | _ => (Ok bad_credentials, w)
        end
    end.
Proof.
  intros Hi Hpw. unfold login, getUserByEmailOrUsername, send_route.
  unfold bind, try_catch, sent, ret, throw, throw_unless_no_rows.
  rewrite (proj2 (truthy_Some i) Hi), (proj2 (truthy_Some pw) Hpw). simpl.
  destruct (outage _) as [e|]; simpl.
  { by destruct (bool_decide (code e ≠ "PGRST116")). }
  rewrite set_db_same by done.
  destruct (filter _ _) as [|p [|p' l]]; simpl; try done.
  by destruct (bcrypt_compare pw (profile_password_hash p)).
Qed.

Lemma login_invalid (w : World) (i pw : option string) :
  Js.truthy i && Js.truthy pw = false ->
  sign_in i pw w =
    (Ok (Sent 400 (ErrorPayload "Email/username and password are required")), w).
Proof.
  intros H. unfold login, try_catch, sent, ret.
  by destruct (Js.truthy i), (Js.truthy pw).
Qed.

(** X23. Login does not tell an unknown account from a wrong password.
    With a store that answers, an identifier that selects no single profile
    and a password that the hash of the selected profile does not accept get
    the same response, 401 "Invalid credentials"; and whatever its inputs and
    outcome, login writes nothing: the request and the tables are as they
    were. *)
Theorem login_rejections_are_indistinguishable
    (w : World) (identifier password : option string) :
  snd (sign_in identifier password w) = w
  ∧ (∀ i pw, identifier = Some i -> password = Some pw -> i ≠ "" -> pw ≠ "" ->
       outage (SelectProfileByIdentifier i) = None ->
       ((∀ p, matching i w ≠ [p])
        ∨ ∃ p, matching i w = [p]
               ∧ bcrypt_compare pw (profile_password_hash p) = false) ->
       fst (sign_in identifier password w) =
         Ok (Sent 401 (ErrorPayload "Invalid credentials"))).
Proof.
  split.
  - destruct (Js.truthy identifier && Js.truthy password) eqn:Hin.
    2:{ by rewrite login_invalid. }
    apply andb_true_iff in Hin as [Hi Hpw].
    destruct (truthy_inv _ Hi) as (i & -> & Hi').
    destruct (truthy_inv _ Hpw) as (pw & -> & Hpw').
    rewrite (login_run w i pw Hi' Hpw').
    destruct (outage _) as [e|]; [done|].
    by destruct (matching i w) as [|p [|p' l]].
  - intros i pw -> -> Hi Hpw Hout Hcase. rewrite (login_run w i pw Hi Hpw), Hout.
    destruct Hcase as [Hnone|(p & -> & Hbad)].
    + destruct (matching i w) as [|p [|p' l]]; try done. by destruct (Hnone p).
    + by rewrite Hbad.
Qed.

(** X24. Login and the gate agree on a session. When the identifier
    selects one profile and the stored hash accepts the password, login
    answers 200 with the token signed for the id, user name and role of that
    profile, and writes nothing; and, given a codec that verifies what it
    signed, a later request carrying [Bearer <token>] passes the gate with
    that profile as principal, as long as the store still holds it. *)
Theorem login_token_authenticates
    (w : World) (i pw : string) (p : ProfileRow) :
  i ≠ "" -> pw ≠ "" -> outage (SelectProfileByIdentifier i) = None ->
  matching i w = [p] -> bcrypt_compare pw (profile_password_hash p) = true ->
  let token := jwt_sign (claims_of p) SECRET TTL in
  sign_in (Some i) (Some pw) w =
    (Ok (Sent 200 (SessionPayload "Login successful" token (profile_id p)
                     (profile_username p) (profile_email p) (profile_role p))), w)
  ∧ (∀ w2, jwt_verify token SECRET = inr (claims_of p) ->
       Js.has_space token = false -> token ≠ "" ->
       user (req w2) = None ->
       headers (req w2) !! "authorization" = Some ("Bearer " ++ token) ->
       fault w2 (SelectProfileById (profile_id p)) = None ->
       filter (λ q, profile_id q = profile_id p) (profiles (db w2)) = [p] ->
       fst (gate w2) = Ok Next
       ∧ user (req (snd (gate w2))) = Some (Supabase.user_columns p)
       ∧ authType (req (snd (gate w2))) = Some "jwt").
Proof.
  intros Hi Hpw Hout Hmatch Hok token. subst token. split.
  - by rewrite (login_run w i pw Hi Hpw), Hout, Hmatch, Hok.
  - intros w2 Hcodec Hsp Hne Hu Hh Hf Hrow.
    assert (token_of w2 = Some (jwt_sign (claims_of p) SECRET TTL)) as Ht
      by (unfold token_of; rewrite Hh; by apply bearer_header_token).
    rewrite (gate_token_run _ _ _ w2 _ Hu Ht Hne), Hcodec. cbn zeta.
    rewrite getUserById_run. cbn [fault log claims_of userId]. rewrite Hf.
    unfold users_with_id. cbn [db log]. by rewrite Hrow.
Qed.

Lemma register_invalid (w : World) (u e pw : option string) :
  Js.truthy u && Js.truthy e && Js.truthy pw = false ->
  sign_up u e pw w =
    (Ok (Sent 400 (ErrorPayload "Username, email, and password are required")), w).
Proof.
  intros H. unfold register, try_catch, sent, ret.
  by destruct (Js.truthy u), (Js.truthy e), (Js.truthy pw).
Qed.

(** What registration does once the body has its three fields. *)
Lemma register_run (w : World) (u e pw : string) :
  u ≠ "" -> e ≠ "" -> pw ≠ "" ->
  sign_up (Some u) (Some e) (Some pw) w =
    let create :=
      match outage CountProfiles with
      | Some _ => (Ok (Sent 500 (ErrorPayload "Registration failed")), w)
      | None =>
          match outage (InsertProfile u e (bcrypt_hash pw) (first_role (db w))) with
          | Some _ => (Ok (Sent 500 (ErrorPayload "Registration failed")), w)
          | None =>
              let row := new_profile profile_defaults (db w) u e (bcrypt_hash pw) in
              (Ok (Sent 201 (SessionPayload "User registered successfully"
                     (jwt_sign (claims_of row) SECRET TTL)
                     (profile_id row) u e (first_role (db w)))),
               set_db {| profiles := (profiles (db w) ++ [row])%list;
                         api_keys := api_keys (db w) |} w)
          end
      end in
    if (String.length pw <? 6)%nat
    then (Ok (Sent 400 (ErrorPayload "Password must be at least 6 characters")), w)
    else if negb (emailRegex_test e)
    then (Ok (Sent 400 (ErrorPayload "Invalid email format")), w)
    else
      match outage (SelectProfileByIdentifier e) with
      | Some err =>
          if bool_decide (code err ≠ "PGRST116")
          then (Ok (Sent 500 (ErrorPayload "Registration failed")), w)
          else create
      | None =>
          match matching e w with
          | [_] => (Ok (Sent 409 (ErrorPayload
                      "User with this email or username already exists")), w)
          | _ => create
          end
      end.
Proof.
  intros Hu He Hpw.
  unfold register, getUserByEmailOrUsername, getUserCount, createUser, send_route.
  unfold bind, try_catch, sent, ret, throw, throw_unless_no_rows, throw_if_error.
  rewrite (proj2 (truthy_Some u) Hu), (proj2 (truthy_Some e) He),
    (proj2 (truthy_Some pw) Hpw). simpl.
  destruct (String.length pw <? 6)%nat; [done|].
  destruct (emailRegex_test e); simpl; [|done].
  cbn zeta.
  assert (set_db (db w) w = w) as Hsame by (by apply set_db_same).
  destruct (outage (SelectProfileByIdentifier e)) as [err|]; simpl.
  - destruct (bool_decide (code err ≠ "PGRST116")); simpl; [done|].
    destruct (outage CountProfiles); simpl; [done|]. rewrite Hsame.
    unfold first_role, new_profile, claims_of.
    assert (bool_decide (Some (length (profiles (db w))) = Some 0%nat)
            = bool_decide (length (profiles (db w)) = 0%nat)) as ->
      by (apply bool_decide_ext; split; [by intros [= ->]|by intros ->]).
    by destruct (outage (InsertProfile _ _ _ _)).
  - rewrite Hsame.
    destruct (filter _ _) as [|p [|p' l]]; simpl; try done.
    all: destruct (outage CountProfiles); simpl; [done|]; rewrite Hsame.
    all: unfold first_role, new_profile, claims_of.
    all: assert (bool_decide (Some (length (profiles (db w))) = Some 0%nat)
            = bool_decide (length (profiles (db w)) = 0%nat)) as ->
      by (apply bool_decide_ext; split; [by intros [= ->]|by intros ->]).
    all: by destruct (outage (InsertProfile _ _ _ _)).
Qed.



(** X27. Registration never grants admin once a profile exists. Whatever
    the body and whatever the store answers, every profile in the table after
    registration either was there before or has the role viewer, unless the
    table was empty; and the API keys are as they were. *)
Theorem register_never_grants_admin_later
    (w : World) (u e pw : option string) (p : ProfileRow) :
  api_keys (db (snd (sign_up u e pw w))) = api_keys (db w)
  ∧ (p ∈ profiles (db (snd (sign_up u e pw w))) ->
     p ∈ profiles (db w) ∨ profile_role p = first_role (db w))
  ∧ (p ∈ profiles (db (snd (sign_up u e pw w))) -> profiles (db w) ≠ [] ->
     p ∈ profiles (db w) ∨ profile_role p = "viewer").
Proof.
  assert (api_keys (db (snd (sign_up u e pw w))) = api_keys (db w)
          ∧ (p ∈ profiles (db (snd (sign_up u e pw w))) ->
             p ∈ profiles (db w) ∨ profile_role p = first_role (db w))) as [Hk Hp].
  { destruct (Js.truthy u && Js.truthy e && Js.truthy pw) eqn:Hin.
    2:{ rewrite register_invalid by done. by split; [|left]. }
    apply andb_true_iff in Hin as [Hin Hpw]. apply andb_true_iff in Hin as [Hu He].
    destruct (truthy_inv _ Hu) as (un & -> & Hu').
    destruct (truthy_inv _ He) as (em & -> & He').
    destruct (truthy_inv _ Hpw) as (pwd & -> & Hpw').
    rewrite (register_run w un em pwd Hu' He' Hpw'). cbn zeta.
    assert (∀ x : Result Reply * World,
              x = match outage CountProfiles with
                  | Some _ => (Ok (Sent 500 (ErrorPayload "Registration failed")), w)
                  | None =>
                      match outage (InsertProfile un em (bcrypt_hash pwd)
                                      (first_role (db w))) with
                      | Some _ => (Ok (Sent 500 (ErrorPayload "Registration failed")), w)
                      | None =>
                          (Ok (Sent 201 (SessionPayload "User registered successfully"
                                 (jwt_sign (claims_of (new_profile profile_defaults (db w)
                                                         un em (bcrypt_hash pwd)))
                                    SECRET TTL)
                                 (profile_id (new_profile profile_defaults (db w)
                                                un em (bcrypt_hash pwd)))
                                 un em (first_role (db w)))),
                           set_db {| profiles := (profiles (db w) ++
                                        [new_profile profile_defaults (db w)
                                           un em (bcrypt_hash pwd)])%list;
                                     api_keys := api_keys (db w) |} w)
                      end
                  end ->
              api_keys (db (snd x)) = api_keys (db w)
              ∧ (p ∈ profiles (db (snd x)) ->
                 p ∈ profiles (db w) ∨ profile_role p = first_role (db w))) as Hcreate.
    { intros x ->. destruct (outage CountProfiles); [by split; [|left]|].
      destruct (outage (InsertProfile _ _ _ _)); [by split; [|left]|].
      simpl. split; [done|]. intros Hin. apply elem_of_app in Hin as [Hin|Hin].
      - by left.
      - apply list_elem_of_singleton in Hin as ->. by right. }
    destruct (String.length pwd <? 6)%nat; [by split; [|left]|].
    destruct (emailRegex_test em); simpl; [|by split; [|left]].
    destruct (outage (SelectProfileByIdentifier em)) as [err|].
    - destruct (bool_decide (code err ≠ "PGRST116")); [by split; [|left]|].
      by apply Hcreate.
    - destruct (matching em w) as [|q [|q' l]]; try by apply Hcreate.
      by split; [|left]. }
  repeat split; [done|done|].
  intros Hin Hne. destruct (Hp Hin) as [?|Hrole]; [by left|right].
  rewrite Hrole. unfold first_role. rewrite bool_decide_eq_false_2; [done|].
  by destruct (profiles (db w)).
Qed.

End AccountFacts.

Lemma login_rejections_witness :
  fst (Scenario.sign_in (Some "alice") (Some "wrong")
         (Demo.world Demo.healthy (Demo.request []))) =
    Ok (Sent 401 (ErrorPayload "Invalid credentials"))
  ∧ fst (Scenario.sign_in (Some "nobody") (Some "a")
           (Demo.world Demo.healthy (Demo.request []))) =
      Ok (Sent 401 (ErrorPayload "Invalid credentials")).
Proof.
  split.
  - apply (login_rejections_are_indistinguishable None None Scenario.no_outage
             Scenario.sign Scenario.compare Scenario.email_or_username
             (Demo.world Demo.healthy (Demo.request [])) (Some "alice") (Some "wrong"))
      with (i := "alice") (pw := "wrong"); try done.
    right. by exists Demo.alice.
  - apply (login_rejections_are_indistinguishable None None Scenario.no_outage
             Scenario.sign Scenario.compare Scenario.email_or_username
             (Demo.world Demo.healthy (Demo.request [])) (Some "nobody") (Some "a"))
      with (i := "nobody") (pw := "a"); try done.
    left. by intros p.
Defined.

Lemma login_token_witness :
  fst (Demo.gate (Demo.world Demo.healthy (Demo.bearer "tok-alice"))) = Ok Next
  ∧ user (req (snd (Demo.gate (Demo.world Demo.healthy (Demo.bearer "tok-alice"))))) =
      Some (Supabase.user_columns Demo.alice)
  ∧ authType (req (snd (Demo.gate (Demo.world Demo.healthy (Demo.bearer "tok-alice"))))) =
      Some "jwt".
Proof.
  destruct (login_token_authenticates Demo.jwt Demo.sha None None Scenario.no_outage
              Scenario.sign Scenario.compare Scenario.email_or_username
              (Demo.world Demo.healthy (Demo.request []))
              "alice@atlas.test" "a" Demo.alice
              ltac:(done) ltac:(done) eq_refl eq_refl eq_refl) as [_ Hgate].
  apply (Hgate (Demo.world Demo.healthy (Demo.bearer "tok-alice"))); by vm_compute.
Defined.



Lemma register_later_user_witness :
  let row := new_profile Scenario.profile_ids Scenario.store2
               "dave" "dave@atlas.test" (Scenario.hash "secret1") in
  row ∈ profiles Scenario.store2 ∨ profile_role row = "viewer".
Proof.
  apply (register_never_grants_admin_later None None Scenario.no_outage
           Scenario.sign Scenario.hash Scenario.email_ok Scenario.email_or_username
           Scenario.profile_ids
           (Scenario.world_on Scenario.store2 (Demo.request []))
           (Some "dave") (Some "dave@atlas.test") (Some "secret1")).
  - vm_compute. do 3 right. left.
  - done.
Defined.

(** ** The further properties at concrete requests *)


Lemma gate_preserves_credentials_witness :
  db (snd (Demo.gate (Demo.world Demo.outage (Demo.with_key "atla_b0b")))) =
    Demo.store.
Proof.
  apply (gate_preserves_credentials Demo.jwt Demo.sha None
           (Demo.world Demo.outage (Demo.with_key "atla_b0b"))).
  by vm_compute.
Defined.

Lemma gate_rejection_witness :
  req (snd (Demo.gate (Demo.world Demo.healthy (Demo.bearer "tok-old")))) =
    Demo.bearer "tok-old".
Proof.
  apply (gate_rejection_leaves_request Demo.jwt Demo.sha None
           (Demo.world Demo.healthy (Demo.bearer "tok-old")) 403
           (ErrorBody "Invalid or expired token"));
    by vm_compute.
Defined.

Lemma gate_reentry_witness :
  Demo.gate (snd (Demo.gate (Demo.world Demo.healthy (Demo.with_key "atla_b0b")))) =
    (Ok Next, snd (Demo.gate (Demo.world Demo.healthy (Demo.with_key "atla_b0b")))).
Proof.
  apply (gate_reentry_is_noop Demo.jwt Demo.sha None
           (Demo.world Demo.healthy (Demo.with_key "atla_b0b"))).
  by vm_compute.
Defined.


Lemma stale_claims_same_identity (t : string) :
  same_identity (Demo.jwt t Demo.secret) (Scenario.stale_jwt t Demo.secret).
Proof.
  unfold Scenario.stale_jwt. by destruct (Demo.jwt t Demo.secret).
Qed.

Lemma gate_ignores_claims_witness :
  authenticateToken Scenario.stale_jwt Demo.sha None
    (Demo.world Demo.healthy (Demo.bearer "tok-bob")) =
  Demo.gate (Demo.world Demo.healthy (Demo.bearer "tok-bob")).
Proof.
  apply (gate_ignores_other_claims Demo.jwt Demo.sha None Scenario.stale_jwt).
  apply stale_claims_same_identity.
Defined.

Lemma guarded_pipeline_witness :
  ∃ u p, user (req (snd (chain Demo.gate (requireRole ["admin"])
                           (Demo.world Demo.healthy (Demo.bearer "tok-alice"))))) =
           Some u
         ∧ p ∈ profiles Demo.store ∧ stands_for u p ∧ profile_role p ∈ ["admin"].
Proof.
  apply (guarded_pipeline_admits_allowed_roles Demo.jwt Demo.sha None ["admin"]
           (Demo.world Demo.healthy (Demo.bearer "tok-alice")) eq_refl).
  by vm_compute.
Defined.

Lemma optionalAuth_witness :
  user (req (snd (Demo.soft_gate
                    (Demo.world Demo.healthy
                       (with_user (Supabase.user_columns Demo.bob)
                          (Demo.bearer "tok-alice")))))) =
    Some (Supabase.user_columns Demo.alice).
Proof.
  apply (optionalAuth_only_sets_user Demo.jwt None
           (Demo.world Demo.healthy
              (with_user (Supabase.user_columns Demo.bob) (Demo.bearer "tok-alice"))))
    with (t := "tok-alice") (d := Demo.alice_claims); by vm_compute.
Defined.

Lemma revoked_key_witness :
  fst (Demo.gate
         (Scenario.world_on
            (db (snd (revokeApiKey (Demo.world Demo.healthy (Demo.signed_in Demo.bob "k1")))))
            (Demo.with_key "atla_b0b"))) =
    Ok (Respond 401 (ErrorBody "Invalid API key")).
Proof.
  destruct (revoked_key_is_gone Demo.jwt Demo.sha None
              (Demo.world Demo.healthy (Demo.signed_in Demo.bob "k1"))
              (Supabase.user_columns Demo.bob) eq_refl eq_refl) as [_ Hgone].
  apply (Hgone _ "atla_b0b"); try by vm_compute.
  intros row Hin _. revert row Hin. apply Forall_forall. by repeat constructor.
Defined.

Lemma revoke_failure_witness :
  fst (revokeApiKey (Demo.world Demo.outage (Demo.signed_in Demo.bob "k1"))) =
    Ok (Respond 500 (ErrorBody "Failed to revoke API key"))
  ∧ db (snd (revokeApiKey (Demo.world Demo.outage (Demo.signed_in Demo.bob "k1")))) =
      Demo.store.
Proof.
  apply (revoke_failures_answer_500
           (Demo.world Demo.outage (Demo.signed_in Demo.bob "k1")))
    with (u := Supabase.user_columns Demo.bob) (e := Demo.connection_lost);
    by vm_compute.
Defined.

Lemma route_delete_witness :
  (∃ k', k' ∈ api_keys (db (snd (route_delete_key Demo.jwt Demo.sha None
                                   (Demo.world Demo.healthy (Demo.bearer "tok-alice")))))
         ∧ key_identity k' = key_identity Demo.bob_key)
  ∨ (fst (route_delete_key Demo.jwt Demo.sha None
            (Demo.world Demo.healthy (Demo.bearer "tok-alice"))) =
       Ok (Respond 200 (MessageBody "API key revoked successfully"))
     ∧ key_id Demo.bob_key = "k1"
     ∧ ∃ u, user (req (snd (route_delete_key Demo.jwt Demo.sha None
                              (Demo.world Demo.healthy (Demo.bearer "tok-alice"))))) =
              Some u
            ∧ key_user_id Demo.bob_key = u_id u).
Proof.
  apply (route_delete_key_spares_foreign_keys Demo.jwt Demo.sha None
           (Demo.world Demo.healthy (Demo.bearer "tok-alice")) Demo.bob_key eq_refl).
  left.
Defined.

Lemma last_used_update_witness :
  db (snd (updateApiKeyLastUsed "k1"
             (tick "2026-11-04T00:00:00.000Z"
                (snd (updateApiKeyLastUsed "k1"
                        (tick "2026-11-03T12:00:00.000Z"
                           (Scenario.world_on Scenario.store2 (Demo.request [])))))))) =
  db (snd (updateApiKeyLastUsed "k1"
             (tick "2026-11-04T00:00:00.000Z"
                (Scenario.world_on Scenario.store2 (Demo.request []))))).
Proof.
  apply (last_used_update_is_last_write_wins
           (Scenario.world_on Scenario.store2 (Demo.request []))
           "k1" "k9" "2026-11-03T12:00:00.000Z" "2026-11-04T00:00:00.000Z");
    reflexivity.
Defined.

Lemma issued_key_witness :
  fst (Scenario.issue (Some "deploy")
         (Demo.world Demo.healthy (Demo.signed_in Demo.alice "k1"))) =
    Ok (Sent 201 (KeyCreatedPayload "deploy" Scenario.the_key
          "Make sure to copy your API key now. You won't be able to see it again!")).
Proof.
  apply (issued_key_authenticates_owner Demo.jwt Demo.sha None
           Scenario.no_outage Scenario.entropy Scenario.defaults
           (Demo.world Demo.healthy (Demo.signed_in Demo.alice "k1"))
           (Supabase.user_columns Demo.alice) "deploy"); try by vm_compute.
  apply Forall_forall. repeat constructor. by vm_compute.
Defined.

Lemma issue_key_fails_closed_witness :
  Scenario.issue (Some "")
    (Demo.world Demo.healthy (Demo.signed_in Demo.alice "k1")) =
  (Ok (Sent 400 (ErrorPayload "Key name is required")),
   Demo.world Demo.healthy (Demo.signed_in Demo.alice "k1")).
Proof.
  by apply (issue_key_fails_closed Demo.sha Scenario.no_outage Scenario.entropy
              Scenario.defaults).
Defined.

Lemma listing_witness :
  ∃ items,
    Scenario.list_keys
      (Scenario.world_on Scenario.store2 (Demo.signed_in Demo.bob "k1")) =
      (Ok (Sent 200 (KeysPayload (Some items))),
       Scenario.world_on Scenario.store2 (Demo.signed_in Demo.bob "k1"))
    ∧ items ≡ₚ listing <$> filter (λ k, key_user_id k = "u2") (api_keys Scenario.store2)
    ∧ (∀ item, item ∈ items <->
         ∃ k, k ∈ api_keys Scenario.store2 ∧ key_user_id k = "u2" ∧ item = listing k).
Proof.
  by apply (listing_shows_own_keys_only Scenario.no_outage Scenario.newer
              (Scenario.world_on Scenario.store2 (Demo.signed_in Demo.bob "k1"))
              (Supabase.user_columns Demo.bob)).
Defined.

Lemma role_update_witness :
  Scenario.patch_role (Some "viewer")
    (Demo.world Demo.healthy (Demo.signed_in Demo.alice "u1")) =
  (Ok (Sent 400 (ErrorPayload "Cannot demote the only admin user")),
   Demo.world Demo.healthy (Demo.signed_in Demo.alice "u1")).
Proof.
  apply (role_update_checks_before_writing Scenario.no_outage
           (Demo.world Demo.healthy (Demo.signed_in Demo.alice "u1")) (Some "viewer"))
    with (u := Supabase.user_columns Demo.alice) (r := "viewer");
    try by vm_compute.
  do 2 right. left.
Defined.

Lemma role_route_witness :
  has_admin
    (db (snd (route_update_role Demo.jwt Demo.sha None Scenario.no_outage
                (Some "viewer")
                (Scenario.world_on Scenario.store2
                   (Scenario.request_on "u3" [("authorization", "Bearer tok-alice")]))))).
Proof.
  apply (role_route_keeps_an_admin Demo.jwt Demo.sha None Scenario.no_outage
           (Scenario.world_on Scenario.store2
              (Scenario.request_on "u3" [("authorization", "Bearer tok-alice")]))
           (Some "viewer") eq_refl).
  - apply (bool_decide_unpack _). by vm_compute.
  - exists Demo.alice. split; [left|done].
Defined.

Lemma delete_user_witness :
  Scenario.delete_user (Demo.world Demo.healthy (Demo.signed_in Demo.alice "u1")) =
  (Ok (Sent 400 (ErrorPayload "Cannot delete your own account")),
   Demo.world Demo.healthy (Demo.signed_in Demo.alice "u1")).
Proof.
  by apply (delete_user_checks_before_writing Scenario.no_outage Scenario.cascade
              (Demo.world Demo.healthy (Demo.signed_in Demo.alice "u1"))
              (Supabase.user_columns Demo.alice) eq_refl).
Defined.

Lemma delete_user_route_witness :
  has_admin
    (db (snd (route_delete_user Demo.jwt Demo.sha None Scenario.no_outage
                Scenario.cascade
                (Scenario.world_on Scenario.store2
                   (Scenario.request_on "u3" [("authorization", "Bearer tok-alice")]))))).
Proof.
  apply (delete_user_route_keeps_an_admin Demo.jwt Demo.sha None Scenario.no_outage
           Scenario.cascade
           (Scenario.world_on Scenario.store2
              (Scenario.request_on "u3" [("authorization", "Bearer tok-alice")]))
           eq_refl).
  exists Demo.alice. split; [left|done].
Defined.
